(** * PMC drug-research PDF retriever: the acquisition pipeline of [app.py]

    A shallow embedding of the functions of [src/streamlit/app.py] that query
    the search API, resolve a PDF link, download it with retries, unwrap gzip
    and tar-gzip containers and validate the result, together with the
    properties of them that the specification states.

    The Python code talks to a file system, to the network and to the
    [gzip], [tarfile], [json] and [xml.etree] libraries.  They are modelled
    as follows.
    - The file system is a finite map from path strings to regular files; a
      file has its bytes and a flag telling whether it can be opened for
      reading.  Directories are outside the model: the directory of a path
      that is written is taken to exist, so creating a file there, and
      writing, removing and renaming an existing regular file, always
      succeed; paths and [os.rename] follow POSIX (renaming onto an existing
      file replaces it).
    - The network is an oracle: the reply to a request depends on the URL and
      on the number of requests made before it.
    - The library codecs ([gzip.decompress], [tarfile.open], the f-string
      conversion of a value that is not a string) are fields of an
      [environment] record over which every function and theorem is
      parametrised.
    - Exceptions are an explicit outcome, and every effect that a claim is
      about (requests, sleeps, validations, notifications) is appended to a
      trace. *)

From Stdlib Require Import ZArith List Strings.Byte String Ascii Lia.
From stdpp Require Import gmap strings list fin_maps.

#[local] Set Warnings "-register-all".
#[local] Open Scope string_scope.
#[local] Open Scope Z_scope.

(** ** Python values *)

(** [bytes] objects. *)
Definition bytes := list byte.

#[global] Instance byte_eq_decision : EqDecision byte := Byte.byte_eq_dec.

(** A [bytes] literal such as [b"%PDF-"]. *)
Definition b (s : string) : bytes := list_byte_of_string s.

(** The exceptions the modelled code can raise. *)
Inductive exn :=
  | OSError            (* open, seek, remove, rename *)
  | RequestException   (* requests: connection error, timeout, bad status *)
  | URLError           (* urllib *)
  | JSONDecodeError
  | ParseError         (* xml.etree *)
  | ReadError          (* tarfile *)
  | BadGzipFile
  | KeyError
  | AttributeError
  | TypeError.

(** What evaluating an expression gives: a value or a raised exception. *)
Inductive outcome (A : Type) :=
  | Val (a : A)
  | Exc (e : exn).
Arguments Val {A} a.
Arguments Exc {A} e.

Definition is_exc {A} (o : outcome A) : bool :=
  match o with Exc _ => true | Val _ => false end.

(** [s.endswith(suf)]: [suf] is one of the tails of [s]. *)
Fixpoint str_endswith (s suf : string) : bool :=
  String.eqb s suf ||
  match s with
  | EmptyString => false
  | String _ s' => str_endswith s' suf
  end.

(** [s.startswith(pre)]. *)
Definition str_startswith (s pre : string) : bool := String.prefix pre s.

(** [s.replace(" ", "_")] for the one-character pattern the driver uses. *)
Fixpoint str_replace_char (old new : ascii) (s : string) : string :=
  match s with
  | EmptyString => EmptyString
  | String c s' =>
      String (if Ascii.eqb c old then new else c) (str_replace_char old new s')
  end.

(** [needle in hay] on bytes: [needle] is a prefix of some tail of [hay]. *)
Fixpoint bytes_startswith (hay needle : bytes) {struct needle} : bool :=
  match needle, hay with
  | [], _ => true
  | _ :: _, [] => false
  | x :: needle', y :: hay' => Byte.eqb x y && bytes_startswith hay' needle'
  end.

Fixpoint bytes_contains (needle hay : bytes) : bool :=
  bytes_startswith hay needle ||
  match hay with
  | [] => false
  | _ :: hay' => bytes_contains needle hay'
  end.

(** ** The file system *)

Record file := File { f_data : bytes; f_readable : bool }.

Definition os_path_exists (fs : gmap string file) (p : string) : bool :=
  bool_decide (is_Some (fs !! p)).

Definition os_path_getsize (fs : gmap string file) (p : string) : outcome Z :=
  match fs !! p with
  | Some f => Val (Z.of_nat (length (f_data f)))
  | None => Exc OSError
  end.

(** [open(p, "rb")] followed by reading: the bytes of the file. *)
Definition open_rb (fs : gmap string file) (p : string) : outcome bytes :=
  match fs !! p with
  | Some f => if f_readable f then Val (f_data f) else Exc OSError
  | None => Exc OSError
  end.

(** [open(p, "wb")] followed by writing [data]: the file is created or
    truncated; an existing file keeps its mode. *)
Definition open_wb (fs : gmap string file) (p : string) (data : bytes)
  : gmap string file :=
  match fs !! p with
  | Some f => <[p := File data (f_readable f)]> fs
  | None => <[p := File data true]> fs
  end.

Definition os_remove (fs : gmap string file) (p : string)
  : outcome (gmap string file) :=
  match fs !! p with
  | Some _ => Val (delete p fs)
  | None => Exc OSError
  end.

Definition os_rename (fs : gmap string file) (src dst : string)
  : outcome (gmap string file) :=
  match fs !! src with
  | Some f => Val (<[dst := f]> (delete src fs))
  | None => Exc OSError
  end.

(** An open binary file: its bytes and the read position. *)
Record handle := Handle { h_data : bytes; h_pos : nat }.

(** [f.read(n)]. *)
Definition f_read (n : nat) (h : handle) : bytes * handle :=
  let chunk := take n (drop (h_pos h) (h_data h)) in
  (chunk, Handle (h_data h) (h_pos h + length chunk)%nat).

(** [f.seek(off, 2)]: relative to the end; a negative target raises. *)
Definition f_seek_end (off : Z) (h : handle) : outcome handle :=
  let target := Z.of_nat (length (h_data h)) + off in
  if target <? 0 then Exc OSError
  else Val (Handle (h_data h) (Z.to_nat target)).

(** ** PDF validation *)

(** The body of the [try] block of [is_valid_pdf]. *)
Definition is_valid_pdf_try (fs : gmap string file) (file_path : string)
  : outcome bool :=
  if negb (os_path_exists fs file_path) then Val false
  else
    match os_path_getsize fs file_path with
    | Exc e => Exc e
    | Val size =>
        if size <? 5000 then Val false
        else
          match open_rb fs file_path with
          | Exc e => Exc e
          | Val data =>
              let f := Handle data 0 in
              let '(header, f) := f_read 5 f in
              match f_seek_end (-10) f with
              | Exc e => Exc e
              | Val f =>
                  let '(footer, _) := f_read 10 f in
                  Val (bool_decide (header = b "%PDF-")
                       && bytes_contains (b "%%EOF") footer)
              end
          end
    end.

(** [is_valid_pdf]: the bare [except] turns every exception into [False]. *)
Definition is_valid_pdf (fs : gmap string file) (file_path : string) : bool :=
  match is_valid_pdf_try fs file_path with
  | Val v => v
  | Exc _ => false
  end.

(** ** The world, and a state-and-exception monad over it *)

(** The effects the claims speak about. *)
Inductive event :=
  | EvFetch (url dest : string)          (* a call of [download_stream] *)
  | EvSleep (seconds : Z)                (* [time.sleep] *)
  | EvValidate (path : string) (ok : bool) (* [is_valid_pdf] in [download_pdf] *)
  | EvSearch (query : string)            (* the request of [search_pmc_articles] *)
  | EvResolve (api_url : string)         (* the request of [get_pdf_link_from_pmcid] *)
  | EvAppend (path : string)             (* [downloaded_files.append] *)
  | EvSuccess (about : string)           (* [st.success], with the path or
                                            folder its message names *)
  | EvWarning (about : string)           (* [st.warning], with the record ID
                                            its message names *)
  | EvError.                             (* [st.error] *)

#[global] Instance event_eq_decision : EqDecision event.
Proof. solve_decision. Defined.

Record world := World {
  w_fs : gmap string file;     (* the files on disk *)
  w_clock : nat;               (* the number of network requests made so far *)
  w_trace : list event         (* the effects so far, oldest first *)
}.

Definition M (A : Type) : Type := world → outcome A * world.

Definition ret {A} (a : A) : M A := λ w, (Val a, w).

Definition bind {A B} (m : M A) (k : A → M B) : M B := λ w,
  match m w with
  | (Val a, w') => k a w'
  | (Exc e, w') => (Exc e, w')
  end.

Notation "'do' x <- m ; k" := (bind m (λ x, k))
  (at level 10, x name, m at level 100, k at level 200,
   format "'[v' 'do'  x  <-  m ; '/' k ']'").
Notation "'do_' m ; k" := (bind m (λ _, k))
  (at level 10, m at level 100, k at level 200,
   format "'[v' 'do_'  m ; '/' k ']'").

Definition raise {A} (e : exn) : M A := λ w, (Exc e, w).

(** [try: body / except: handler] with a bare [except]. *)
Definition try_except {A} (body handler : M A) : M A := λ w,
  match body w with
  | (Val a, w') => (Val a, w')
  | (Exc _, w') => handler w'
  end.

(** A pure, fallible operation on the file system. *)
Definition lift_fs {A} (f : gmap string file → outcome A) : M A := λ w,
  (f (w_fs w), w).

Definition set_fs (fs : gmap string file) : M unit := λ w,
  (Val (), World fs (w_clock w) (w_trace w)).

Definition log (e : event) : M unit := λ w,
  (Val (), World (w_fs w) (w_clock w) (w_trace w ++ [e])).

(** The time of the next request; asking for it uses it up. *)
Definition tick : M nat := λ w,
  (Val (w_clock w), World (w_fs w) (S (w_clock w)) (w_trace w)).

Definition exists_ (p : string) : M bool :=
  lift_fs (λ fs, Val (os_path_exists fs p)).

Definition read_file (p : string) : M bytes := lift_fs (λ fs, open_rb fs p).

Definition write_file (p : string) (data : bytes) : M unit := λ w,
  set_fs (open_wb (w_fs w) p data) w.

Definition remove (p : string) : M unit :=
  do fs <- lift_fs (λ fs, os_remove fs p); set_fs fs.

Definition rename (src dst : string) : M unit :=
  do fs <- lift_fs (λ fs, os_rename fs src dst); set_fs fs.

(** [if os.path.exists(p): os.remove(p)]. *)
Definition remove_if_exists (p : string) : M unit :=
  do e <- exists_ p; if e then remove p else ret ().

Definition sleep (seconds : Z) : M unit := log (EvSleep seconds).

(** ** The network and the library codecs *)

(** A streamed body: the chunks that arrive, and whether the stream breaks
    (raises) after them. *)
Record transfer := Transfer { t_chunks : list bytes; t_broken : bool }.

Record http_reply := HttpReply { r_status : Z; r_body : transfer }.

(** A reply whose text is handed to a parser: the request fails, or the text
    arrives and parses ([Some]) or does not ([None]). *)
Inductive text_reply (A : Type) :=
  | NetError
  | Body (parsed : option A).
Arguments NetError {A}.
Arguments Body {A} parsed.

(** JSON as [response.json()] returns it; an object keeps its keys in
    insertion order. *)
Inductive json :=
  | JNull
  | JBool (v : bool)
  | JNumber (lexeme : string)
  | JString (s : string)
  | JArray (items : list json)
  | JObject (fields : list (string * json)).

(** An element of an [xml.etree] tree. *)
Inductive element :=
  | Element (tag : string) (attrib : gmap string string)
            (children : list element).

Definition e_tag (e : element) : string := let 'Element t _ _ := e in t.
Definition e_attrib (e : element) : gmap string string :=
  let 'Element _ a _ := e in a.
Definition e_children (e : element) : list element :=
  let 'Element _ _ c := e in c.

Record environment := Environment {
  (* requests.get(url, stream=True): [None] when the request raises *)
  net_http : string → nat → option http_reply;
  (* urllib.request.urlopen(url): [None] when it raises *)
  net_ftp : string → nat → option transfer;
  (* the search API, by the [term] and [retmax] parameters *)
  net_esearch : string → Z → nat → text_reply json;
  (* the resolver API, by URL *)
  net_oa : string → nat → text_reply element;
  (* gzip.decompress: [None] when it raises *)
  gzip_decompress : bytes → option bytes;
  (* tarfile.open(path, "r:gz").getmembers() with each member's bytes, the
     members being regular files: [None] when the file is not a readable
     gzip-compressed tar archive *)
  tarfile_open : bytes → option (list (string * bytes));
  (* the conversion of a value that is not a [str] in an f-string *)
  py_format : json → string
}.

Definition lift {A} (o : outcome A) : M A := λ w, (o, w).

(** ** Search client and article resolver *)

(** [d.get(k, default)] on a parsed JSON value: only a [dict] has [get]. *)
Fixpoint dict_lookup (k : string) (fields : list (string * json))
  : option json :=
  match fields with
  | [] => None
  | (k', v) :: fields' => if String.eqb k k' then Some v else dict_lookup k fields'
  end.

Definition py_get (d : json) (k : string) (dflt : json) : outcome json :=
  match d with
  | JObject fields => Val (default dflt (dict_lookup k fields))
  | _ => Exc AttributeError
  end.

(** [for x in v]: the items of a list, the characters of a string, the keys
    of a dict; anything else is not iterable. *)
Fixpoint chars (s : string) : list json :=
  match s with
  | EmptyString => []
  | String c s' => JString (String c EmptyString) :: chars s'
  end.

Definition py_iter (v : json) : outcome (list json) :=
  match v with
  | JArray items => Val items
  | JString s => Val (chars s)
  | JObject fields => Val (map (λ kv, JString kv.1) fields)
  | _ => Exc TypeError
  end.

Section Pipeline.

Variable E : environment.

(** [f"{v}"]. *)
Definition fmt (v : json) : string :=
  match v with
  | JString s => s
  | _ => py_format E v
  end.

Definition article_link (id : json) : string :=
  "https://www.ncbi.nlm.nih.gov/pmc/articles/PMC" ++ fmt id ++ "/".

Definition search_pmc_articles (query : string) (max_results : Z)
  : M (json * list string) :=
  do t <- tick;
  do_ log (EvSearch query);
  match net_esearch E query max_results t with
  | NetError => raise RequestException           (* requests.get raises *)
  | Body None => raise JSONDecodeError           (* response.json() raises *)
  | Body (Some data) =>
      do result <- lift (py_get data "esearchresult" (JObject []));
      do pmc_ids <- lift (py_get result "idlist" (JArray []));
      do ids <- lift (py_iter pmc_ids);
      ret (pmc_ids, map article_link ids)
  end.

(** [root.findall(".//link")]: the elements below [root] with tag [link], in
    document order. *)
Fixpoint descendants (e : element) : list element :=
  let 'Element _ _ cs := e in
  (fix go (l : list element) : list element :=
     match l with
     | [] => []
     | c :: l' => c :: descendants c ++ go l'
     end) cs.

Definition findall (tag : string) (root : element) : list element :=
  filter (λ e, e_tag e = tag) (descendants root).

(** The [for] loop of [get_pdf_link_from_pmcid]; [link.attrib["href"]] raises
    [KeyError] when the attribute is missing, and falling off the end of the
    function returns [None]. *)
Fixpoint scan_links (links : list element) : outcome (option string) :=
  match links with
  | [] => Val None
  | link :: rest =>
      if bool_decide (e_attrib link !! "format" = Some "pdf") then
        match e_attrib link !! "href" with
        | Some href => Val (Some href)
        | None => Exc KeyError
        end
      else scan_links rest
  end.

Definition oa_url (pmcid : json) : string :=
  "https://www.ncbi.nlm.nih.gov/pmc/utils/oa/oa.fcgi?id=PMC" ++ fmt pmcid.

Definition get_pdf_link_from_pmcid (pmcid : json) : M (option string) :=
  let api_url := oa_url pmcid in
  try_except
    (do t <- tick;
     do_ log (EvResolve api_url);
     match net_oa E api_url t with
     | NetError => raise RequestException        (* requests.get raises *)
     | Body None => raise ParseError             (* ET.fromstring raises *)
     | Body (Some root) => lift (scan_links (findall "link" root))
     end)
    (ret None).

(** ** Stream downloader *)

(** Streaming a body into [destination], which is already open for writing:
    the chunks are written, then the stream may break. *)
Definition stream_to (keep : bytes → bool) (body : transfer)
  (destination : string) : M unit :=
  do_ write_file destination (concat (List.filter keep (t_chunks body)));
  if t_broken body then raise OSError else ret ().

Definition download_stream (url destination : string) : M unit :=
  do t <- tick;
  do_ log (EvFetch url destination);
  if str_startswith url "ftp://" then
    match net_ftp E url t with
    | None => raise URLError
    | Some body => stream_to (λ _, true) body destination
    end
  else
    match net_http E url t with
    | None => raise RequestException
    | Some r =>
        (* r.raise_for_status() *)
        if (400 <=? r_status r) && (r_status r <? 600) then
          raise RequestException
        else
          (* for chunk in r.iter_content(...): if chunk: f.write(chunk) *)
          stream_to (λ chunk, negb (bool_decide (chunk = []))) (r_body r)
                    destination
    end.

(** ** Unwrapping containers *)

(** [tar.extract(member, path=".")]: the member is written under its name. *)
Definition tar_extract (name : string) (content : bytes) : M unit := λ w,
  set_fs (<[name := File content true]> (w_fs w)) w.

(** The result is [Some true] for [True], [Some false] for [False], and
    [None] for the [None] that falling off the end of the function returns. *)
Definition extract_pdf_from_tar_gz (tar_path output_path : string)
  : M (option bool) :=
  try_except
    (do data <- read_file tar_path;
     match tarfile_open E data with
     | None => raise ReadError
     | Some members =>
         match List.find (λ m, str_endswith m.1 ".pdf") members with
         | Some (name, content) =>
             do_ tar_extract name content;
             do_ rename name output_path;
             ret (Some true)
         | None => ret None
         end
     end)
    (ret (Some false)).

Definition safe_gunzip (data : bytes) : option bytes :=
  match gzip_decompress E data with
  | Some out => Some out
  | None => None
  end.

(** Truth value of a returned [True], [False] or [None]. *)
Definition truthy (v : option bool) : bool :=
  match v with Some true => true | _ => false end.

Definition has_gzip_magic (raw : bytes) : bool :=
  bool_decide (take 2 raw = [x1f; x8b]).

(** ** Download orchestrator *)

(** How one pass through the body of the [for] loop ends: with a [return],
    or by reaching [time.sleep(1)]. *)
Inductive flow :=
  | Return (v : bool)
  | Fallthrough.

(** A call of [is_valid_pdf] by [download_pdf]. *)
Definition validate (path : string) : M bool := λ w,
  let ok := is_valid_pdf (w_fs w) path in
  (do_ log (EvValidate path ok); ret ok) w.

(** Lines 117-122: write the payload, drop the temp file, validate. *)
Definition write_final (save_path temp_file : string) (raw : bytes) : M flow :=
  do_ write_file save_path raw;
  do_ remove_if_exists temp_file;
  do ok <- validate save_path;
  if ok then ret (Return true) else ret Fallthrough.

(** Lines 99-122: the body of the [try] block. *)
Definition attempt_try (pdf_url save_path temp_file : string) : M flow :=
  do_ download_stream pdf_url temp_file;
  do raw <- read_file temp_file;
  if str_endswith pdf_url ".tar.gz" || has_gzip_magic raw then
    do extracted <-
      (if str_endswith pdf_url ".tar.gz" then
         do r <- extract_pdf_from_tar_gz temp_file save_path; ret (truthy r)
       else ret false);
    if extracted then
      do_ remove temp_file;
      do ok <- validate save_path;
      if ok then ret (Return true)
      else write_final save_path temp_file raw
    else if has_gzip_magic raw then
      match safe_gunzip raw with
      | Some (c :: decompressed) =>
          write_final save_path temp_file (c :: decompressed)
      | _ =>
          (* [if decompressed:] fails on [None] and on [b""] *)
          do_ remove_if_exists temp_file;
          ret (Return false)
      end
    else write_final save_path temp_file raw
  else write_final save_path temp_file raw.

(** [temp_file = save_path + ".tmp"]. *)
Definition temp_of (save_path : string) : string := save_path ++ ".tmp".

(** One iteration of the loop up to, and without, [time.sleep(1)]. *)
Definition attempt (pdf_url save_path : string) : M flow :=
  let temp_file := temp_of save_path in
  try_except
    (attempt_try pdf_url save_path temp_file)
    (do_ remove_if_exists temp_file; ret Fallthrough).

(** [for attempt in range(1, n + 1): ...] followed by [return False]. *)
Fixpoint attempts (pdf_url save_path : string) (n : nat) : M bool :=
  match n with
  | O => ret false
  | S n' =>
      do r <- attempt pdf_url save_path;
      match r with
      | Return v => ret v
      | Fallthrough => do_ sleep 1; attempts pdf_url save_path n'
      end
  end.

Definition download_pdf (pdf_url save_path : string) (retries : Z) : M bool :=
  attempts pdf_url save_path (Z.to_nat retries).

(** ** Pipeline driver *)

(** [os.path.join(a, p)] (posixpath). *)
Definition os_path_join (a p : string) : string :=
  if str_startswith p "/" then p
  else if String.eqb a "" || str_endswith a "/" then a ++ p
  else a ++ "/" ++ p.

(** The state of the driver's loop: [download_count] and
    [st.session_state.downloaded_files]. *)
Definition driver_state : Type := Z * list string.

Definition save_path_of (drug output_folder : string) (pmcid : json) : string :=
  os_path_join output_folder (drug ++ "_repurposing_PMC" ++ fmt pmcid ++ ".pdf").

(** Lines 158-171: [for i, pmcid in enumerate(pmc_ids): ...].  The progress
    text, which changes nothing else, is left out. *)
Fixpoint driver_loop (drug output_folder : string) (max_pdfs : Z)
  (pmc_ids : list json) (st : driver_state) : M driver_state :=
  match pmc_ids with
  | [] => ret st
  | pmcid :: rest =>
      let '(download_count, downloaded_files) := st in
      if max_pdfs <=? download_count then ret st            (* break *)
      else
        do pdf_url <- get_pdf_link_from_pmcid pmcid;
        match pdf_url with
        | Some (String _ _ as pdf_url) =>
            let save_path := save_path_of drug output_folder pmcid in
            do ok <- download_pdf pdf_url save_path 3;
            if ok then
              do_ log (EvAppend save_path);
              do_ log (EvSuccess save_path);
              driver_loop drug output_folder max_pdfs rest
                (download_count + 1, (downloaded_files ++ [save_path])%list)
            else
              do_ log (EvWarning (fmt pmcid));
              driver_loop drug output_folder max_pdfs rest st
        | _ =>                      (* [if not pdf_url: continue] *)
            driver_loop drug output_folder max_pdfs rest st
        end
  end.

(** Lines 148-176, from the search on: what the script does under the guard
    of line 146, once [os.makedirs] of line 150 has returned.  The guard,
    [os.makedirs] (there are no directories in the model) and the [st.info]
    and [st.write] displays are left out. *)
Definition run (downloads_folder drug : string) (max_links max_pdfs : Z)
  : M driver_state :=
  let full_query := drug ++ " repurposing" in
  let output_folder :=
    os_path_join downloads_folder (str_replace_char " " "_" full_query) in
  do found <- search_pmc_articles full_query max_links;
  do pmc_ids <- lift (py_iter found.1);
  do st <- driver_loop drug output_folder max_pdfs pmc_ids (0, []);
  do_ (if st.1 =? 0 then log EvError else log (EvSuccess output_folder));
  ret st.

End Pipeline.

(** ** Display of the acquired files (lines 179-204) *)

(** [c in s]. *)
Fixpoint str_has (c : ascii) (s : string) : bool :=
  match s with
  | EmptyString => false
  | String c' s' => Ascii.eqb c' c || str_has c s'
  end.

(** [os.path.basename(p)] (posixpath): what follows the last [/]. *)
Fixpoint os_path_basename (p : string) : string :=
  match p with
  | EmptyString => EmptyString
  | String c p' =>
      if str_has "/" p' then os_path_basename p'
      else if Ascii.eqb c "/" then p'
      else p
  end.

(** Line 201: the widget key of a file,
    [pdf_path.replace("_", "-").replace("/", "-").replace("\\", "-")]. *)
Definition sanitized_key (pdf_path : string) : string :=
  str_replace_char "\" "-"
    (str_replace_char "/" "-" (str_replace_char "_" "-" pdf_path)).

(** * Vocabulary of the properties

    Names for what the claims speak about: the shape of a PDF, the first
    matching link or archive member, and ways of reading a trace. *)

(** The structural check on the bytes of a file, as one boolean. *)
Definition pdf_shaped (data : bytes) : bool :=
  bool_decide (5000 ≤ length data)%nat
  && bool_decide (take 5 data = b "%PDF-")
  && bytes_contains (b "%%EOF") (drop (length data - 10) data).

(** The world after one request that left the files alone. *)
Definition after_request (ev : event) (w : world) : world :=
  World (w_fs w) (S (w_clock w)) (w_trace w ++ [ev])%list.

(** The first [link] element of the response whose [format] is ["pdf"]. *)
Definition first_pdf_link (root : element) : option element :=
  List.find (λ link, bool_decide (e_attrib link !! "format" = Some "pdf"))
            (findall "link" root).

(** What the resolver returns, read off the reply of the resolver API. *)
Definition resolved (reply : text_reply element) : option string :=
  match reply with
  | Body (Some root) =>
      match first_pdf_link root with
      | Some link => e_attrib link !! "href"
      | None => None
      end
  | _ => None
  end.

(** The first member of an archive whose name ends in [.pdf]. *)
Definition first_pdf_member (members : list (string * bytes))
  : option (string * bytes) :=
  List.find (λ m, str_endswith m.1 ".pdf") members.

(** The last character of a string. *)
Fixpoint last_char (s : string) : option ascii :=
  match s with
  | EmptyString => None
  | String c EmptyString => Some c
  | String _ s' => last_char s'
  end.

(** The events [download_pdf] produces. *)
Definition is_download_event (e : event) : bool :=
  match e with
  | EvFetch _ _ | EvSleep _ | EvValidate _ _ => true
  | _ => false
  end.

(** One failed pass of the loop: the request, then the one-second wait. *)
Definition failed_attempt (url save_path : string) : list event :=
  [EvFetch url (temp_of save_path); EvSleep 1].

(** The number of requests [download_stream] made in a trace. *)
Definition fetches (t : list event) : nat :=
  length (List.filter (λ e, match e with EvFetch _ _ => true | _ => false end) t).

(** The paths appended to [downloaded_files], in order. *)
Definition appended (t : list event) : list string :=
  omap (λ e, match e with EvAppend p => Some p | _ => None end) t.

(** The resolver requests, in order. *)
Definition resolved_urls (t : list event) : list string :=
  omap (λ e, match e with EvResolve u => Some u | _ => None end) t.

(** The paths whose validation succeeded, in order.  A validation that
    succeeds is how [download_pdf] returns [True] (lines 107 and 122), so
    these are the successful downloads of a trace. *)
Definition validated (t : list event) : list string :=
  omap (λ e, match e with EvValidate p true => Some p | _ => None end) t.

(** Every [EvAppend p] of [t] comes right after [EvValidate p true]; [prev]
    is the event before the first one of [t]. *)
Fixpoint justified_from (prev : option event) (t : list event) : bool :=
  match t with
  | [] => true
  | e :: t' =>
      match e with
      | EvAppend p => bool_decide (prev = Some (EvValidate p true))
      | _ => true
      end && justified_from (Some e) t'
  end.

(** The event before whatever follows [t]. *)
Definition last_event (prev : option event) (t : list event) : option event :=
  match last t with Some e => Some e | None => prev end.

(** The seconds [time.sleep] was asked to wait in a trace, in total. *)
Fixpoint slept (t : list event) : Z :=
  match t with
  | [] => 0
  | EvSleep seconds :: t' => seconds + slept t'
  | _ :: t' => slept t'
  end.

(** The payload [raw] of [url] is not taken by tar extraction: the URL does
    not end in [.tar.gz], or the payload is no gzip-compressed tar archive,
    or the archive has no member whose name ends in [.pdf]. *)
Definition tar_declines (E : environment) (url : string) (raw : bytes) : Prop :=
  str_endswith url ".tar.gz" = false ∨
  tarfile_open E raw = None ∨
  ∃ members, tarfile_open E raw = Some members ∧
             first_pdf_member members = None.

(** The mode a file written at [p] ends up with: that of the file it
    replaces, and readable when there was none. *)
Definition mode_at (fs : gmap string file) (p : string) : bool :=
  match fs !! p with
  | Some f => f_readable f
  | None => true
  end.

(** ** What one transfer does to the destination

    Read off the reply to [download_stream]'s request: the call raises before
    the destination is opened, or the destination is opened, the payload is
    written, and the stream may break after it. *)
Inductive fetched :=
  | NotOpened (e : exn)
  | Written (payload : bytes) (broken : bool).

Definition fetch_of (E : environment) (url : string) (t : nat) : fetched :=
  if str_startswith url "ftp://" then
    match net_ftp E url t with
    | None => NotOpened URLError
    | Some body => Written (concat (t_chunks body)) (t_broken body)
    end
  else
    match net_http E url t with
    | None => NotOpened RequestException
    | Some r =>
        if (400 <=? r_status r) && (r_status r <? 600) then
          NotOpened RequestException
        else Written (concat (t_chunks (r_body r))) (t_broken (r_body r))
    end.

(** * Example worlds

    Concrete environments and worlds on which the functions above are run. *)

(** No file on disk, no request made, nothing logged. *)
Definition empty_world : world := World ∅ 0 [].

(** Every request fails, and no payload decodes. *)
Definition dead_network : environment :=
  Environment (λ _ _, None) (λ _ _, None) (λ _ _ _, NetError) (λ _ _, NetError)
              (λ _, None) (λ _, None) (λ _, "").

(** A resolver reply with two PDF links, the first of them without [href]. *)
Definition oa_two_pdf_links : element :=
  Element "OA" ∅
    [Element "records" ∅
       [Element "record" {[ "id" := "PMC42" ]}
          [Element "link" {[ "format" := "tgz"; "href" := "ftp://host/42.tar.gz" ]} [];
           Element "link" {[ "format" := "pdf" ]} [];
           Element "link" {[ "format" := "pdf"; "href" := "ftp://host/42.pdf" ]} []]]].

Definition oa_two_pdf_links_env : environment :=
  Environment (λ _ _, None) (λ _ _, None) (λ _ _ _, NetError)
              (λ _ _, Body (Some oa_two_pdf_links))
              (λ _, None) (λ _, None) (λ _, "").

(** An archive that holds one member, a text file. *)
Definition readme_archive_env : environment :=
  Environment (λ _ _, None) (λ _ _, None) (λ _ _ _, NetError) (λ _ _, NetError)
              (λ _, None)
              (λ _, Some [("README.txt", b "no article here")])
              (λ _, "").

Definition bundle_world : world :=
  World {[ "out.pdf.tmp" := File [x1f; x8b; x08] true ]} 1 [].

(** A stale temp file from an earlier run is on disk. *)
Definition stale_tmp_world : world :=
  World {[ "a.pdf.tmp" := File (b "partial") true ]} 0 [].

(** The server answers every request with four bytes that start with the
    gzip magic and that [gzip.decompress] rejects. *)
Definition corrupt_gzip_env : environment :=
  Environment
    (λ _ _, Some (HttpReply 200 (Transfer [[x1f; x8b; x08; x00]] false)))
    (λ _ _, None) (λ _ _ _, NetError) (λ _ _, NetError)
    (λ _, None) (λ _, None) (λ _, "").

(** A gzip-compressed tar archive that holds one small file, [paper.pdf];
    [bundle_tar] stands for its decompressed bytes.  The server sends the
    archive whole. *)
Definition bundle_tgz : bytes := [x1f; x8b; x08; x00; x42; x5a].
Definition bundle_tar : bytes := b "paper.pdf ustar %PDF-1.4 tiny".

Definition bundle_env : environment :=
  Environment
    (λ _ _, None)
    (λ _ _, Some (Transfer [bundle_tgz] false))
    (λ _ _ _, NetError) (λ _ _, NetError)
    (λ data, if bool_decide (data = bundle_tgz) then Some bundle_tar else None)
    (λ data, if bool_decide (data = bundle_tgz)
             then Some [("paper.pdf", b "%PDF-1.4 tiny")] else None)
    (λ _, "").

(** A well-formed PDF buffer of exactly 5000 bytes. *)
Definition valid_pdf_bytes : bytes :=
  (b "%PDF-" ++ replicate 4990 x00 ++ b "%%EOF")%list.

(** The resolver's reply for a record that has one PDF link. *)
Definition oa_reply_for (href : string) : element :=
  Element "OA" ∅
    [Element "records" ∅
       [Element "record" ∅
          [Element "link" {[ "format" := "pdf"; "href" := href ]} []]]].

(** The scenario of the specification: five IDs are found; the PDFs of the
    first two answer 404, the third is a short text file, the fourth and the
    fifth are genuine PDFs. *)
Definition aspirin_ids : list json :=
  [JString "1"; JString "2"; JString "3"; JString "4"; JString "5"].

Definition aspirin_env : environment :=
  Environment
    (λ url _,
       if String.eqb url "http://host/3.pdf" then
         Some (HttpReply 200 (Transfer [b "<html>not a pdf</html>"] false))
       else if String.eqb url "http://host/4.pdf"
               || String.eqb url "http://host/5.pdf" then
         Some (HttpReply 200 (Transfer [valid_pdf_bytes] false))
       else Some (HttpReply 404 (Transfer [] false)))
    (λ _ _, None)
    (λ _ _ _,
       Body (Some (JObject [("header", JObject []);
                            ("esearchresult",
                             JObject [("count", JString "5");
                                      ("idlist", JArray aspirin_ids)])])))
    (λ api_url _,
       Body (Some (oa_reply_for
                     ("http://host/"
                      ++ String.substring 56 1 api_url ++ ".pdf"))))
    (λ _, None) (λ _, None) (λ _, "").

(** A payload that carries the gzip magic and decompresses to a PDF. *)
Definition gzipped_pdf_env : environment :=
  Environment
    (λ _ _, Some (HttpReply 200 (Transfer [[x1f; x8b]; []; [x08; x00]] false)))
    (λ _ _, None) (λ _ _ _, NetError) (λ _ _, NetError)
    (λ data, if bool_decide (data = [x1f; x8b; x08; x00])
             then Some valid_pdf_bytes else None)
    (λ _, None) (λ _, "").

(** An archive whose member [paper.pdf] is a PDF. *)
Definition archived_pdf_env : environment :=
  Environment
    (λ _ _, None)
    (λ _ _, Some (Transfer [bundle_tgz] false))
    (λ _ _ _, NetError) (λ _ _, NetError)
    (λ _, None)
    (λ data, if bool_decide (data = bundle_tgz)
             then Some [("notes.txt", b "notes"); ("paper.pdf", valid_pdf_bytes)]
             else None)
    (λ _, "").

(** The search API answers with a JSON object that has no [esearchresult]. *)
Definition no_result_env : environment :=
  Environment (λ _ _, None) (λ _ _, None)
              (λ _ _ _, Body (Some (JObject [("header", JObject [])])))
              (λ _ _, NetError) (λ _, None) (λ _, None) (λ _, "").

(** A file that is not part of any download. *)
Definition notes_world : world :=
  World {[ "notes.txt" := File (b "keep me") true ]} 0 [].

(** A genuine PDF from an earlier run is at the save path. *)
Definition earlier_pdf_world : world :=
  World {[ "a.pdf" := File valid_pdf_bytes true ]} 0 [].

(** A server whose stream breaks after the first chunk. *)
Definition broken_stream_env : environment :=
  Environment
    (λ _ _, Some (HttpReply 200 (Transfer [b "%PDF-1.4 first chunk"] true)))
    (λ _ _, None) (λ _ _ _, NetError) (λ _ _, NetError)
    (λ _, None) (λ _, None) (λ _, "").

(** * Properties *)

(** ** Bytes and strings *)

Lemma bytes_startswith_spec (needle hay : bytes) :
  bytes_startswith hay needle = true ↔ ∃ rest, hay = (needle ++ rest)%list.
Proof.
  revert hay; induction needle as [|x needle IH]; intros hay; simpl.
  - split; [eauto|done].
  - destruct hay as [|y hay].
    + split; [done|]. intros [rest Hrest]; discriminate.
    + rewrite andb_true_iff, IH. split.
      * intros [Hxy [rest ->]].
        apply Byte.byte_dec_bl in Hxy as ->. eauto.
      * intros [rest Hrest]. injection Hrest as -> ->.
        split; [apply Byte.byte_dec_lb; reflexivity | eauto].
Qed.

Lemma bytes_contains_spec (needle hay : bytes) :
  bytes_contains needle hay = true ↔
  ∃ before after, hay = (before ++ needle ++ after)%list.
Proof.
  induction hay as [|y hay IH]; simpl.
  - rewrite orb_false_r, bytes_startswith_spec. split.
    + intros [rest ->]. by exists [], rest.
    + intros (before & after & Heq). symmetry in Heq.
      apply app_eq_nil in Heq as [-> Heq]. eauto.
  - rewrite orb_true_iff, bytes_startswith_spec, IH. split.
    + intros [[rest ->] | (before & after & ->)].
      * by exists [], rest.
      * by exists (y :: before), after.
    + intros ([|z before] & after & Heq); simpl in Heq.
      * left; eauto.
      * injection Heq as -> ->. right; eauto.
Qed.

Lemma is_valid_pdf_try_file (fs : gmap string file) (p : string) (f : file) :
  fs !! p = Some f →
  is_valid_pdf_try fs p =
    if bool_decide (5000 ≤ length (f_data f))%nat then
      if f_readable f then Val (pdf_shaped (f_data f)) else Exc OSError
    else Val false.
Proof.
  intros Hp. unfold is_valid_pdf_try, os_path_exists, os_path_getsize, open_rb.
  rewrite Hp, bool_decide_eq_true_2 by eauto. simpl.
  destruct (Z.ltb_spec (Z.of_nat (length (f_data f))) 5000) as [Hlt|Hge].
  { rewrite bool_decide_eq_false_2 by lia. done. }
  rewrite bool_decide_eq_true_2 by lia.
  destruct (f_readable f); [|done].
  unfold f_seek_end, f_read, pdf_shaped; simpl.
  destruct (Z.ltb_spec (Z.of_nat (length (f_data f)) + -10) 0); [lia|].
  simpl. rewrite (bool_decide_eq_true_2 (5000 ≤ _)%nat) by lia. simpl.
  replace (Z.to_nat (Z.of_nat (length (f_data f)) + -10))
    with (length (f_data f) - 10)%nat by lia.
  rewrite drop_0, (take_ge (drop (length (f_data f) - 10) _))
    by (rewrite length_drop; lia).
  done.
Qed.

Lemma is_valid_pdf_file (fs : gmap string file) (p : string) :
  is_valid_pdf fs p =
    match fs !! p with
    | Some f => f_readable f && pdf_shaped (f_data f)
    | None => false
    end.
Proof.
  unfold is_valid_pdf. destruct (fs !! p) as [f|] eqn:Hp.
  - rewrite (is_valid_pdf_try_file _ _ _ Hp). unfold pdf_shaped.
    case_bool_decide; destruct (f_readable f); simpl; done.
  - unfold is_valid_pdf_try, os_path_exists.
    rewrite Hp, bool_decide_eq_false_2; [done|]. by intros [? ?].
Qed.

(** C1. [is_valid_pdf path] is true exactly when [path] names a file that
    can be read, has at least 5000 bytes, starts with the five bytes [%PDF-]
    and has [%%EOF] within its last ten bytes; whenever the check raises (the
    file cannot be opened, or the seek lands before the start of a file
    shorter than ten bytes) the result is false. *)
Theorem is_valid_pdf_correct (fs : gmap string file) (path : string) :
  (is_valid_pdf fs path = true ↔
     ∃ f, fs !! path = Some f ∧ f_readable f = true ∧
          (5000 ≤ length (f_data f))%nat ∧
          take 5 (f_data f) = b "%PDF-" ∧
          ∃ before after,
            drop (length (f_data f) - 10) (f_data f)
            = (before ++ b "%%EOF" ++ after)%list) ∧
  (∀ e, is_valid_pdf_try fs path = Exc e → is_valid_pdf fs path = false) ∧
  (∀ f, fs !! path = Some f → f_readable f = false →
        is_valid_pdf fs path = false) ∧
  (∀ h, (length (h_data h) < 10)%nat → f_seek_end (-10) h = Exc OSError).
Proof.
  repeat split.
  - rewrite is_valid_pdf_file. destruct (fs !! path) as [f|]; [|done].
    unfold pdf_shaped.
    rewrite !andb_true_iff, !bool_decide_eq_true, bytes_contains_spec.
    intros (Hr & (Hlen & Hhead) & Hfoot). exists f. done.
  - intros (f & Hp & Hr & Hlen & Hhead & Hfoot).
    rewrite is_valid_pdf_file, Hp. unfold pdf_shaped.
    rewrite !andb_true_iff, !bool_decide_eq_true, bytes_contains_spec. done.
  - intros e He. unfold is_valid_pdf. by rewrite He.
  - intros f Hp Hr. by rewrite is_valid_pdf_file, Hp, Hr.
  - intros h Hh. unfold f_seek_end.
    destruct (Z.ltb_spec (Z.of_nat (length (h_data h)) + -10) 0); [done|lia].
Qed.

(** A well-formed buffer of 5000 bytes validates; a well-formed one of 4999
    bytes, one without the trailer, one without the header, an unreadable
    file and a missing path do not. *)
Example is_valid_pdf_examples :
  is_valid_pdf {[ "a.pdf" := File valid_pdf_bytes true ]} "a.pdf" = true ∧
  is_valid_pdf
    {[ "a.pdf" := File (b "%PDF-" ++ replicate 4989 x00 ++ b "%%EOF")%list true ]}
    "a.pdf" = false ∧
  is_valid_pdf
    {[ "a.pdf" := File (b "%PDF-" ++ replicate 4995 x00)%list true ]}
    "a.pdf" = false ∧
  is_valid_pdf
    {[ "a.pdf" := File (replicate 4995 x00 ++ b "%%EOF")%list true ]}
    "a.pdf" = false ∧
  is_valid_pdf {[ "a.pdf" := File valid_pdf_bytes false ]} "a.pdf" = false ∧
  is_valid_pdf {[ "a.pdf" := File valid_pdf_bytes true ]} "b.pdf" = false.
Proof. vm_compute. repeat split; done. Qed.

(** ** Running monadic code *)

Ltac unfold_monad :=
  unfold remove_if_exists, remove, rename, exists_, read_file, write_file,
    sleep in *;
  unfold bind, ret, raise, try_except, lift, lift_fs, set_fs, log, tick in *.

Ltac mrun := unfold_monad; simpl in *.

(** ** Article resolver *)

Lemma scan_links_find (links : list element) :
  scan_links links =
    match List.find
            (λ link, bool_decide (e_attrib link !! "format" = Some "pdf"))
            links with
    | Some link =>
        match e_attrib link !! "href" with
        | Some href => Val (Some href)
        | None => Exc KeyError
        end
    | None => Val None
    end.
Proof.
  induction links as [|link rest IH]; simpl; [done|].
  by case_bool_decide.
Qed.

Lemma get_pdf_link_from_pmcid_run (E : environment) (pmcid : json) (w : world) :
  get_pdf_link_from_pmcid E pmcid w =
    (Val (resolved (net_oa E (oa_url E pmcid) (w_clock w))),
     after_request (EvResolve (oa_url E pmcid)) w).
Proof.
  unfold get_pdf_link_from_pmcid, resolved, first_pdf_link, after_request. mrun.
  destruct (net_oa E (oa_url E pmcid) (w_clock w)) as [|[root|]]; try done.
  rewrite scan_links_find.
  destruct (List.find _ _) as [link|]; [|done].
  by destruct (e_attrib link !! "href").
Qed.

(** C6. The resolver returns the [href] of the first [link] element of the
    XML response whose [format] attribute is ["pdf"]; when the request fails,
    the response does not parse, or there is no such element, it returns
    [None]; it never raises. *)
Theorem get_pdf_link_from_pmcid_correct
    (E : environment) (pmcid : json) (w : world) :
  let reply := net_oa E (oa_url E pmcid) (w_clock w) in
  let result := (get_pdf_link_from_pmcid E pmcid w).1 in
  (∀ root link href,
     reply = Body (Some root) → first_pdf_link root = Some link →
     e_attrib link !! "href" = Some href → result = Val (Some href)) ∧
  (reply = NetError ∨ reply = Body None ∨
   (∃ root, reply = Body (Some root) ∧ first_pdf_link root = None) →
   result = Val None) ∧
  (∃ url, result = Val url).
Proof.
  intros reply result. subst reply result.
  rewrite get_pdf_link_from_pmcid_run. simpl.
  split; [|split].
  - intros root link href Hreply Hlink Hhref.
    rewrite Hreply. simpl. by rewrite Hlink, Hhref.
  - intros [Hreply | [Hreply | (root & Hreply & Hnone)]];
      rewrite Hreply; simpl; [done..|].
    by rewrite Hnone.
  - eauto.
Qed.

Example get_pdf_link_from_pmcid_examples :
  (get_pdf_link_from_pmcid aspirin_env (JString "4") empty_world).1
  = Val (Some "http://host/4.pdf") ∧
  (get_pdf_link_from_pmcid dead_network (JString "4") empty_world).1
  = Val None.
Proof. vm_compute. split; reflexivity. Qed.

(** C10. When the first [link] element with [format="pdf"] has no [href],
    the resolver returns [None]: the [KeyError] is caught, and no later
    [link] element is looked at. *)
Theorem get_pdf_link_from_pmcid_missing_href
    (E : environment) (pmcid : json) (w : world) (root link : element) :
  net_oa E (oa_url E pmcid) (w_clock w) = Body (Some root) →
  first_pdf_link root = Some link →
  e_attrib link !! "href" = None →
  scan_links (findall "link" root) = Exc KeyError ∧
  (get_pdf_link_from_pmcid E pmcid w).1 = Val None.
Proof.
  intros Hreply Hlink Hhref. split.
  - rewrite scan_links_find. unfold first_pdf_link in Hlink.
    by rewrite Hlink, Hhref.
  - rewrite get_pdf_link_from_pmcid_run, Hreply. simpl.
    by rewrite Hlink, Hhref.
Qed.

(** C10, at a response whose second PDF link carries an [href]. *)
Lemma get_pdf_link_from_pmcid_missing_href_witness :
  scan_links (findall "link" oa_two_pdf_links) = Exc KeyError ∧
  (get_pdf_link_from_pmcid oa_two_pdf_links_env (JString "42") empty_world).1
  = Val None.
Proof.
  apply (get_pdf_link_from_pmcid_missing_href
           oa_two_pdf_links_env (JString "42") empty_world oa_two_pdf_links
           (Element "link" {[ "format" := "pdf" ]} []));
    vm_compute; reflexivity.
Defined.

(** ** Search client *)

Lemma search_pmc_articles_run
    (E : environment) (query : string) (max_results : Z) (w : world) :
  search_pmc_articles E query max_results w =
    (match net_esearch E query max_results (w_clock w) with
     | NetError => Exc RequestException
     | Body None => Exc JSONDecodeError
     | Body (Some data) =>
         match py_get data "esearchresult" (JObject []) with
         | Exc e => Exc e
         | Val result =>
             match py_get result "idlist" (JArray []) with
             | Exc e => Exc e
             | Val pmc_ids =>
                 match py_iter pmc_ids with
                 | Exc e => Exc e
                 | Val ids => Val (pmc_ids, map (article_link E) ids)
                 end
             end
         end
     end,
     after_request (EvSearch query) w).
Proof.
  unfold search_pmc_articles, after_request. mrun.
  destruct (net_esearch E query max_results (w_clock w)) as [|[data|]];
    try done.
  destruct (py_get data _ _) as [result|]; [|done].
  destruct (py_get result _ _) as [pmc_ids|]; [|done].
  by destruct (py_iter pmc_ids).
Qed.

(** C7. The search client returns the ID list found under
    [esearchresult.idlist] of the JSON response, and the empty list when
    either key is missing; when the request fails or the response is not
    JSON, the exception reaches the caller. *)
Theorem search_pmc_articles_correct
    (E : environment) (query : string) (max_results : Z) (w : world) :
  let reply := net_esearch E query max_results (w_clock w) in
  let result := (search_pmc_articles E query max_results w).1 in
  (∀ fields rfields ids,
     reply = Body (Some (JObject fields)) →
     dict_lookup "esearchresult" fields = Some (JObject rfields) →
     dict_lookup "idlist" rfields = Some (JArray ids) →
     result = Val (JArray ids, map (article_link E) ids)) ∧
  (∀ fields,
     reply = Body (Some (JObject fields)) →
     dict_lookup "esearchresult" fields = None ∨
     (∃ rfields, dict_lookup "esearchresult" fields = Some (JObject rfields) ∧
                 dict_lookup "idlist" rfields = None) →
     result = Val (JArray [], [])) ∧
  (reply = NetError → result = Exc RequestException) ∧
  (reply = Body None → result = Exc JSONDecodeError).
Proof.
  intros reply result. subst reply result.
  rewrite search_pmc_articles_run. simpl.
  repeat split.
  - intros fields rfields ids Hreply Hres Hids.
    rewrite Hreply. simpl. rewrite Hres. simpl. by rewrite Hids.
  - intros fields Hreply [Hres | (rfields & Hres & Hids)];
      rewrite Hreply; simpl; rewrite Hres; simpl; [done|].
    by rewrite Hids.
  - by intros ->.
  - by intros ->.
Qed.

Example search_pmc_articles_examples :
  (search_pmc_articles aspirin_env "aspirin repurposing" 10 empty_world).1
  = Val (JArray aspirin_ids,
         ["https://www.ncbi.nlm.nih.gov/pmc/articles/PMC1/";
          "https://www.ncbi.nlm.nih.gov/pmc/articles/PMC2/";
          "https://www.ncbi.nlm.nih.gov/pmc/articles/PMC3/";
          "https://www.ncbi.nlm.nih.gov/pmc/articles/PMC4/";
          "https://www.ncbi.nlm.nih.gov/pmc/articles/PMC5/"]) ∧
  (search_pmc_articles no_result_env "aspirin repurposing" 10 empty_world).1
  = Val (JArray [], []) ∧
  (search_pmc_articles dead_network "aspirin repurposing" 10 empty_world).1
  = Exc RequestException.
Proof. vm_compute. repeat split; reflexivity. Qed.

(** ** Tar-gzip extraction *)

Lemma extract_pdf_from_tar_gz_run
    (E : environment) (tar_path output_path : string) (w : world) :
  extract_pdf_from_tar_gz E tar_path output_path w =
    match open_rb (w_fs w) tar_path with
    | Exc _ => (Val (Some false), w)
    | Val data =>
        match tarfile_open E data with
        | None => (Val (Some false), w)
        | Some members =>
            match first_pdf_member members with
            | Some (name, content) =>
                (Val (Some true),
                 World (<[output_path := File content true]>
                          (delete name (<[name := File content true]> (w_fs w))))
                       (w_clock w) (w_trace w))
            | None => (Val None, w)
            end
        end
    end.
Proof.
  unfold extract_pdf_from_tar_gz, first_pdf_member, tar_extract. mrun.
  destruct (open_rb (w_fs w) tar_path) as [data|]; [|done].
  destruct (tarfile_open E data) as [members|]; [|done].
  destruct (List.find _ members) as [[name content]|]; [|done].
  unfold os_rename. simpl. by rewrite lookup_insert_eq.
Qed.

(** With no [.pdf] member the function falls off its end, so the false
    result it returns is [None]; only the [except] branch returns the
    object [False]. *)
Example extract_pdf_from_tar_gz_no_member_returns_None :
  open_rb (w_fs bundle_world) "out.pdf.tmp" = Val [x1f; x8b; x08] ∧
  tarfile_open readme_archive_env [x1f; x8b; x08]
  = Some [("README.txt", b "no article here")] ∧
  first_pdf_member [("README.txt", b "no article here")] = None ∧
  extract_pdf_from_tar_gz readme_archive_env "out.pdf.tmp" "out.pdf"
    bundle_world = (Val None, bundle_world) ∧
  truthy None = false.
Proof. vm_compute. repeat split; done. Qed.

(** C8. [extract_pdf_from_tar_gz] extracts the first member whose name ends
    in [.pdf], moves it to the output path and returns [True].  When the
    archive cannot be opened as a gzip-compressed tar, or when no member's
    name ends in [.pdf], it returns a false result without raising and
    leaves every file as it was: the object [False] in the first case, and
    in the second the [None] of a function that falls off its end, which is
    false as a condition, the one use that line 104 makes of the result. *)
Theorem extract_pdf_from_tar_gz_correct
    (E : environment) (tar_path output_path : string) (w : world) :
  let r := extract_pdf_from_tar_gz E tar_path output_path w in
  (∀ data members name content,
     open_rb (w_fs w) tar_path = Val data →
     tarfile_open E data = Some members →
     first_pdf_member members = Some (name, content) →
     r.1 = Val (Some true) ∧
     w_fs r.2 !! output_path = Some (File content true) ∧
     (name ≠ output_path → w_fs r.2 !! name = None)) ∧
  (is_exc (open_rb (w_fs w) tar_path) = true ∨
   (∃ data, open_rb (w_fs w) tar_path = Val data ∧ tarfile_open E data = None) →
   ∃ v, r = (Val v, w) ∧ truthy v = false ∧ v = Some false) ∧
  (∀ data members,
     open_rb (w_fs w) tar_path = Val data →
     tarfile_open E data = Some members →
     first_pdf_member members = None →
     ∃ v, r = (Val v, w) ∧ truthy v = false ∧ v = None) ∧
  (∃ v, r.1 = Val v).
Proof.
  intros r. subst r. rewrite extract_pdf_from_tar_gz_run.
  split; [|split; [|split]].
  - intros data members name content Hopen Htar Hfind.
    rewrite Hopen, Htar, Hfind. simpl. split; [done|split].
    + by rewrite lookup_insert_eq.
    + intros Hne. by rewrite lookup_insert_ne, lookup_delete_eq.
  - intros [Hexc | (data & Hopen & Htar)].
    + destruct (open_rb (w_fs w) tar_path); [done|]. by exists (Some false).
    + rewrite Hopen, Htar. by exists (Some false).
  - intros data members Hopen Htar Hfind.
    rewrite Hopen, Htar, Hfind. by exists None.
  - destruct (open_rb (w_fs w) tar_path) as [data|]; [|eauto].
    destruct (tarfile_open E data) as [members|]; [|eauto].
    destruct (first_pdf_member members) as [[name content]|]; eauto.
Qed.

(** ** File-system and trace steps *)

Lemma str_endswith_spec (s suf : string) :
  str_endswith s suf = true ↔ ∃ pre, s = pre ++ suf.
Proof.
  induction s as [|c s IH]; cbn [str_endswith].
  - rewrite orb_false_r, String.eqb_eq. split.
    + intros <-. by exists "".
    + intros ([|c pre] & Hpre); simpl in Hpre; [done|discriminate].
  - rewrite orb_true_iff, String.eqb_eq, IH. split.
    + intros [<- | (pre & ->)]; [by exists ""|by exists (String c pre)].
    + intros ([|c' pre] & Hpre); simpl in Hpre; [by left|].
      injection Hpre as -> ->. right; eauto.
Qed.

Lemma last_char_app (pre : string) (c : ascii) (s : string) :
  last_char (pre ++ String c s) = last_char (String c s).
Proof.
  induction pre as [|c' pre IH]; [done|].
  change (String c' pre ++ String c s) with (String c' (pre ++ String c s)).
  destruct pre; simpl in *; exact IH.
Qed.

(** A member picked by [extract_pdf_from_tar_gz] is never the temp file. *)
Lemma pdf_name_not_tmp (name save_path : string) :
  str_endswith name ".pdf" = true → name ≠ temp_of save_path.
Proof.
  unfold temp_of. intros (pre & ->)%str_endswith_spec Heq.
  apply (f_equal last_char) in Heq.
  rewrite !last_char_app in Heq. discriminate.
Qed.

Lemma tmp_not_save_path (save_path : string) : temp_of save_path ≠ save_path.
Proof.
  unfold temp_of. intros Heq. apply (f_equal String.length) in Heq.
  induction save_path as [|c s IH]; simpl in Heq; [discriminate|].
  apply IH. congruence.
Qed.

#[local] Open Scope list_scope.

Lemma bind_run {A B} (m : M A) (k : A → M B) (w : world) :
  bind m k w = match m w with
               | (Val a, w') => k a w'
               | (Exc e, w') => (Exc e, w')
               end.
Proof. done. Qed.

Lemma remove_if_exists_run (p : string) (w : world) :
  remove_if_exists p w
  = (Val (), World (delete p (w_fs w)) (w_clock w) (w_trace w)).
Proof.
  unfold os_path_exists, os_remove. mrun. unfold os_path_exists, os_remove.
  destruct (w_fs w !! p) as [f|] eqn:Hp.
  - rewrite bool_decide_eq_true_2 by eauto. by rewrite Hp.
  - rewrite bool_decide_eq_false_2 by (by intros [? ?]).
    rewrite delete_id by done. by destruct w.
Qed.

Lemma validate_run (p : string) (w : world) :
  validate p w
  = (Val (is_valid_pdf (w_fs w) p),
     World (w_fs w) (w_clock w)
           (w_trace w ++ [EvValidate p (is_valid_pdf (w_fs w) p)])).
Proof. done. Qed.

Lemma write_final_run (save_path temp_file : string) (raw : bytes) (w : world) :
  let fs' := delete temp_file (open_wb (w_fs w) save_path raw) in
  write_final save_path temp_file raw w
  = (Val (if is_valid_pdf fs' save_path then Return true else Fallthrough),
     World fs' (w_clock w)
           (w_trace w ++ [EvValidate save_path (is_valid_pdf fs' save_path)])).
Proof.
  intros fs'. unfold write_final.
  unfold bind at 1. unfold write_file, set_fs at 1.
  unfold bind at 1. rewrite remove_if_exists_run.
  unfold bind at 1. rewrite validate_run. simpl. fold fs'.
  by destruct (is_valid_pdf fs' save_path).
Qed.

(** [download_stream] makes one request, logs it, and touches no file but
    its destination. *)
Lemma download_stream_frame (E : environment) (url dest : string) (w : world) :
  ∃ o fs',
    download_stream E url dest w
    = (o, World fs' (S (w_clock w)) (w_trace w ++ [EvFetch url dest])).
Proof.
  unfold download_stream, stream_to. mrun.
  destruct (str_startswith url "ftp://").
  - destruct (net_ftp E url (w_clock w)) as [body|]; [|eauto].
    destruct (t_broken body); eauto.
  - destruct (net_http E url (w_clock w)) as [r|]; [|eauto].
    destruct (_ && _); [eauto|].
    destruct (t_broken (r_body r)); eauto.
Qed.

Lemma remove_run (p : string) (w : world) :
  remove p w =
    match w_fs w !! p with
    | Some _ => (Val (), World (delete p (w_fs w)) (w_clock w) (w_trace w))
    | None => (Exc OSError, w)
    end.
Proof. mrun. unfold os_remove. by destruct (w_fs w !! p). Qed.

(** [extract_pdf_from_tar_gz] never raises, makes no request and logs
    nothing. *)
Lemma extract_pdf_from_tar_gz_frame
    (E : environment) (tar_path output_path : string) (w : world) :
  ∃ v fs',
    extract_pdf_from_tar_gz E tar_path output_path w
    = (Val v, World fs' (w_clock w) (w_trace w)).
Proof.
  rewrite extract_pdf_from_tar_gz_run.
  destruct (open_rb (w_fs w) tar_path) as [data|];
    [|destruct w; by eexists _, _].
  destruct (tarfile_open E data) as [members|];
    [|destruct w; by eexists _, _].
  destruct (first_pdf_member members) as [[name content]|];
    [|destruct w]; by eexists _, _.
Qed.

Ltac attempt_done :=
  simpl; rewrite <- ?app_assoc; simpl;
  eexists _, _, _; split; [reflexivity|];
  split; [by rewrite ?lookup_delete_eq|];
  split; [repeat constructor; eauto|];
  try (intros [=]);
  try (split; [done|first [by exists [] | by eexists [_]]]).

Lemma attempt_spec (E : environment) (url save_path : string) (w : world) :
  ∃ r fs' new,
    attempt E url save_path w
    = (Val r, World fs' (S (w_clock w))
                (w_trace w ++ EvFetch url (temp_of save_path) :: new)) ∧
    fs' !! temp_of save_path = None ∧
    Forall (λ e, ∃ ok, e = EvValidate save_path ok) new ∧
    (r = Return true →
     is_valid_pdf fs' save_path = true ∧
     ∃ t, new = t ++ [EvValidate save_path true]).
Proof.
  unfold attempt, try_except, attempt_try.
  rewrite bind_run.
  destruct (download_stream_frame E url (temp_of save_path) w)
    as (o & fs1 & ->).
  destruct o as [[]|e];
    [|rewrite bind_run, remove_if_exists_run; attempt_done].
  rewrite bind_run. unfold read_file, lift_fs at 1. cbn [w_fs].
  destruct (open_rb fs1 (temp_of save_path)) as [raw|e];
    [|rewrite bind_run, remove_if_exists_run; attempt_done].
  destruct (str_endswith url ".tar.gz") eqn:Htar; cbn [orb].
  - rewrite !bind_run.
    destruct (extract_pdf_from_tar_gz_frame E (temp_of save_path) save_path
                (World fs1 (S (w_clock w))
                   (w_trace w ++ [EvFetch url (temp_of save_path)])))
      as (v & fs2 & ->).
    cbn [ret w_clock w_trace]. destruct (truthy v).
    + rewrite bind_run, remove_run. cbn [w_fs].
      destruct (fs2 !! temp_of save_path);
        [|rewrite bind_run, remove_if_exists_run; attempt_done].
      rewrite bind_run, validate_run. cbn [w_fs w_clock w_trace].
      destruct (is_valid_pdf (delete _ fs2) save_path) eqn:Hok.
      * attempt_done.
      * rewrite write_final_run. cbn [w_fs w_clock w_trace].
        destruct (is_valid_pdf (delete _ (open_wb _ _ _)) save_path) eqn:Hok2;
          attempt_done.
    + destruct (has_gzip_magic raw).
      * destruct (safe_gunzip E raw) as [[|c d]|].
        -- rewrite bind_run, remove_if_exists_run. attempt_done.
        -- rewrite write_final_run. cbn [w_fs w_clock w_trace].
           destruct (is_valid_pdf (delete _ (open_wb _ _ _)) save_path) eqn:Hok2;
          attempt_done.
        -- rewrite bind_run, remove_if_exists_run. attempt_done.
      * rewrite write_final_run. cbn [w_fs w_clock w_trace].
        destruct (is_valid_pdf (delete _ (open_wb _ _ _)) save_path) eqn:Hok2;
          attempt_done.
  - destruct (has_gzip_magic raw).
    + rewrite bind_run. cbn [ret].
      destruct (safe_gunzip E raw) as [[|c d]|].
      * rewrite bind_run, remove_if_exists_run. attempt_done.
      * rewrite write_final_run. cbn [w_fs w_clock w_trace].
        destruct (is_valid_pdf (delete _ (open_wb _ _ _)) save_path) eqn:Hok2;
          attempt_done.
      * rewrite bind_run, remove_if_exists_run. attempt_done.
    + rewrite write_final_run. cbn [w_fs w_clock w_trace].
      destruct (is_valid_pdf (delete _ (open_wb _ _ _)) save_path) eqn:Hok2;
          attempt_done.
Qed.

(** ** Download orchestrator *)

Lemma attempts_spec (E : environment) (url save_path : string) (n : nat) :
  ∀ w, ∃ v fs' clock' new,
    attempts E url save_path n w
    = (Val v, World fs' clock' (w_trace w ++ new)) ∧
    forallb is_download_event new = true ∧
    (v = true →
     is_valid_pdf fs' save_path = true ∧
     ∃ t, new = t ++ [EvValidate save_path true]).
Proof.
  induction n as [|n IH]; intros w; cbn [attempts].
  - exists false, (w_fs w), (w_clock w), [].
    rewrite app_nil_r. by destruct w.
  - rewrite bind_run.
    destruct (attempt_spec E url save_path w)
      as (r & fs1 & new1 & -> & _ & Hnew1 & Hvalid).
    assert (forallb is_download_event new1 = true) as Hdl1.
    { apply forallb_forall. intros e He%list_elem_of_In.
      rewrite Forall_forall in Hnew1.
      by destruct (Hnew1 e He) as [ok ->]. }
    destruct r as [v|].
    + exists v, fs1, (S (w_clock w)), (EvFetch url (temp_of save_path) :: new1).
      split; [done|]. split; [done|].
      intros ->. destruct Hvalid as [Hok [t ->]]; [done|].
      split; [done|]. by exists (EvFetch url (temp_of save_path) :: t).
    + rewrite bind_run. unfold sleep, log at 1. cbn [w_fs w_clock w_trace].
      match goal with |- context [attempts _ _ _ _ ?w1] =>
        destruct (IH w1) as (v & fs' & clock' & new & -> & Hnew & Hv)
      end.
      cbn [w_trace]. rewrite <- !app_assoc.
      exists v, fs', clock'. eexists. split; [reflexivity|].
      split.
      * cbn [forallb app is_download_event andb].
        rewrite forallb_app, Hdl1. done.
      * intros Htrue. destruct (Hv Htrue) as [Hok [t ->]].
        split; [done|].
        exists (EvFetch url (temp_of save_path) :: new1 ++ EvSleep 1 :: t).
        simpl. by rewrite <- !app_assoc.
Qed.

Lemma attempt_fetch_raises (E : environment) (url save_path : string) (w : world) :
  is_exc (download_stream E url (temp_of save_path) w).1 = true →
  ∃ fs',
    attempt E url save_path w
    = (Val Fallthrough,
       World fs' (S (w_clock w))
             (w_trace w ++ [EvFetch url (temp_of save_path)])) ∧
    fs' !! temp_of save_path = None.
Proof.
  unfold attempt, try_except, attempt_try. rewrite bind_run.
  destruct (download_stream_frame E url (temp_of save_path) w)
    as (o & fs1 & ->).
  destruct o as [[]|e]; [discriminate|]. intros _.
  rewrite bind_run, remove_if_exists_run. cbn [w_fs w_clock w_trace ret].
  eexists. split; [reflexivity|]. apply lookup_delete_eq.
Qed.

Lemma attempts_persistent_failure
    (E : environment) (url save_path : string) (n : nat) :
  (∀ w, is_exc (download_stream E url (temp_of save_path) w).1 = true) →
  ∀ w, ∃ fs',
    attempts E url save_path n w
    = (Val false,
       World fs' (w_clock w + n)
             (w_trace w ++ concat (replicate n (failed_attempt url save_path)))) ∧
    (n ≠ O ∨ w_fs w !! temp_of save_path = None →
     fs' !! temp_of save_path = None).
Proof.
  intros Hfail. induction n as [|n IH]; intros w; cbn [attempts].
  - exists (w_fs w). rewrite Nat.add_0_r, app_nil_r. split.
    + by destruct w.
    + by intros [?|?].
  - rewrite bind_run.
    destruct (attempt_fetch_raises E url save_path w (Hfail w))
      as (fs1 & -> & Htmp1).
    rewrite bind_run. unfold sleep, log at 1. cbn [w_fs w_clock w_trace].
    match goal with |- context [attempts _ _ _ _ ?w1] =>
      destruct (IH w1) as (fs' & -> & Htmp)
    end.
    cbn [w_fs w_clock w_trace] in *. exists fs'. split.
    + f_equal. f_equal; [lia|].
      cbn [replicate concat failed_attempt app].
      by rewrite <- !app_assoc.
    + intros _. apply Htmp. by right.
Qed.

(** C3. When every fetch of the URL raises, [download_pdf] makes exactly
    [retries] attempts, each one a request followed by a wait of one second,
    and returns false; the temp file is removed after every failed attempt,
    so none is left on disk. *)
Theorem download_pdf_persistent_failure
    (E : environment) (url save_path : string) (retries : Z) (w : world) :
  (∀ w', is_exc (download_stream E url (temp_of save_path) w').1 = true) →
  let n := Z.to_nat retries in
  ∃ fs',
    download_pdf E url save_path retries w
    = (Val false,
       World fs' (w_clock w + n)
             (w_trace w ++ concat (replicate n (failed_attempt url save_path)))) ∧
    (0 ≤ retries → Z.of_nat n = retries) ∧
    (0 < retries ∨ w_fs w !! temp_of save_path = None →
     fs' !! temp_of save_path = None) ∧
    (∀ k, 0 < k ≤ retries →
       w_fs (download_pdf E url save_path k w).2 !! temp_of save_path = None).
Proof.
  intros Hfail n. unfold download_pdf.
  destruct (attempts_persistent_failure E url save_path n Hfail w)
    as (fs' & Hrun & Htmp).
  exists fs'. split; [done|]. split; [lia|]. split.
  - intros [Hpos|Hnone]; apply Htmp; [left; lia|by right].
  - intros k Hk.
    destruct (attempts_persistent_failure E url save_path (Z.to_nat k) Hfail w)
      as (fsk & -> & Htmpk).
    apply Htmpk. left; lia.
Qed.

(** C3 at the default budget, with a stale temp file on disk and a network
    on which every request fails. *)
Lemma download_pdf_persistent_failure_witness :
  ∃ fs',
    download_pdf dead_network "http://host/a.pdf" "a.pdf" 3 stale_tmp_world
    = (Val false,
       World fs' (w_clock stale_tmp_world + Z.to_nat 3)
         (w_trace stale_tmp_world
          ++ concat (replicate (Z.to_nat 3)
                       (failed_attempt "http://host/a.pdf" "a.pdf")))) ∧
    (0 ≤ 3 → Z.of_nat (Z.to_nat 3) = 3) ∧
    (0 < 3 ∨ w_fs stale_tmp_world !! temp_of "a.pdf" = None →
     fs' !! temp_of "a.pdf" = None) ∧
    (∀ k, 0 < k ≤ 3 →
       w_fs (download_pdf dead_network "http://host/a.pdf" "a.pdf" k
               stale_tmp_world).2 !! temp_of "a.pdf" = None).
Proof.
  apply (download_pdf_persistent_failure
           dead_network "http://host/a.pdf" "a.pdf" 3 stale_tmp_world).
  intros w'. reflexivity.
Defined.

(** The pass of the loop in which a payload with the gzip magic does not
    decompress: the temp file is removed and the function returns false. *)
Lemma attempt_corrupt_gzip
    (E : environment) (url save_path : string) (w w1 : world) (raw : bytes) :
  download_stream E url (temp_of save_path) w = (Val (), w1) →
  open_rb (w_fs w1) (temp_of save_path) = Val raw →
  has_gzip_magic raw = true →
  safe_gunzip E raw = None ∨ safe_gunzip E raw = Some [] →
  str_endswith url ".tar.gz" = false ∨ tarfile_open E raw = None ∨
  (∃ members, tarfile_open E raw = Some members ∧
              first_pdf_member members = None) →
  attempt E url save_path w
  = (Val (Return false),
     World (delete (temp_of save_path) (w_fs w1)) (w_clock w1) (w_trace w1)).
Proof.
  intros Hdl Hread Hmagic Hgunzip Htar.
  unfold attempt, try_except, attempt_try.
  rewrite bind_run, Hdl, bind_run. unfold read_file, lift_fs at 1.
  rewrite Hread, Hmagic, orb_true_r, bind_run.
  assert ((if str_endswith url ".tar.gz"
           then do r <- extract_pdf_from_tar_gz E (temp_of save_path) save_path;
                ret (truthy r)
           else ret false) w1 = (Val false, w1)) as ->.
  { destruct (str_endswith url ".tar.gz"); [|done].
    rewrite bind_run, extract_pdf_from_tar_gz_run, Hread.
    destruct Htar as [?|[->|(members & -> & ->)]]; done. }
  destruct Hgunzip as [-> | ->];
    by rewrite bind_run, remove_if_exists_run.
Qed.

(** C2, as stated, fails: with a budget of three attempts, a payload that
    carries the gzip magic and does not decompress ends the acquisition after
    one request; there is no wait and no second download. *)
Lemma download_pdf_corrupt_gzip_not_retried :
  has_gzip_magic [x1f; x8b; x08; x00] = true ∧
  safe_gunzip corrupt_gzip_env [x1f; x8b; x08; x00] = None ∧
  download_pdf corrupt_gzip_env "http://host/a.pdf" "a.pdf" 3 empty_world
  = (Val false, World ∅ 1 [EvFetch "http://host/a.pdf" "a.pdf.tmp"]) ∧
  fetches (w_trace (download_pdf corrupt_gzip_env "http://host/a.pdf" "a.pdf"
                      3 empty_world).2) ≠ 3%nat.
Proof. vm_compute. repeat split; done. Qed.

(** C2, amended. When a download attempt produces a payload that starts
    with the gzip magic and does not decompress (or decompresses to nothing),
    [download_pdf] removes the temp file and returns false at once: no
    further attempt is made, whatever the retry budget. *)
Theorem download_pdf_corrupt_gzip
    (E : environment) (url save_path : string) (retries : Z)
    (w w1 : world) (raw : bytes) :
  0 < retries →
  download_stream E url (temp_of save_path) w = (Val (), w1) →
  open_rb (w_fs w1) (temp_of save_path) = Val raw →
  has_gzip_magic raw = true →
  safe_gunzip E raw = None ∨ safe_gunzip E raw = Some [] →
  str_endswith url ".tar.gz" = false ∨ tarfile_open E raw = None ∨
  (∃ members, tarfile_open E raw = Some members ∧
              first_pdf_member members = None) →
  download_pdf E url save_path retries w
  = (Val false,
     World (delete (temp_of save_path) (w_fs w1)) (w_clock w1) (w_trace w1)) ∧
  w_trace w1 = w_trace w ++ [EvFetch url (temp_of save_path)] ∧
  w_clock w1 = S (w_clock w).
Proof.
  intros Hpos Hdl Hread Hmagic Hgunzip Htar. split.
  - unfold download_pdf.
    destruct (Z.to_nat retries) as [|n] eqn:Hn; [lia|].
    cbn [attempts].
    by rewrite bind_run,
      (attempt_corrupt_gzip E url save_path w w1 raw Hdl Hread Hmagic Hgunzip Htar).
  - destruct (download_stream_frame E url (temp_of save_path) w)
      as (o & fs1 & Hframe).
    rewrite Hframe in Hdl. by injection Hdl as _ <-.
Qed.

(** C2, amended, at a budget of three attempts. *)
Lemma download_pdf_corrupt_gzip_witness :
  download_pdf corrupt_gzip_env "http://host/a.pdf" "a.pdf" 3 empty_world
  = (Val false,
     World (delete (temp_of "a.pdf")
              {[ "a.pdf.tmp" := File [x1f; x8b; x08; x00] true ]})
           1 [EvFetch "http://host/a.pdf" "a.pdf.tmp"]) ∧
  [EvFetch "http://host/a.pdf" "a.pdf.tmp"]
  = w_trace empty_world ++ [EvFetch "http://host/a.pdf" (temp_of "a.pdf")] ∧
  1%nat = S (w_clock empty_world).
Proof.
  refine (download_pdf_corrupt_gzip corrupt_gzip_env "http://host/a.pdf" "a.pdf"
            3 empty_world
            (World {[ "a.pdf.tmp" := File [x1f; x8b; x08; x00] true ]} 1
                   [EvFetch "http://host/a.pdf" "a.pdf.tmp"])
            [x1f; x8b; x08; x00] _ _ _ _ _ _).
  - lia.
  - reflexivity.
  - reflexivity.
  - reflexivity.
  - left. reflexivity.
  - left. reflexivity.
Defined.

Lemma first_pdf_member_name (members : list (string * bytes))
    (name : string) (content : bytes) :
  first_pdf_member members = Some (name, content) →
  str_endswith name ".pdf" = true.
Proof. intros Hfind. by apply find_some in Hfind as [_ ?]. Qed.

Lemma open_rb_Val (fs : gmap string file) (p : string) (data : bytes) :
  open_rb fs p = Val data → fs !! p = Some (File data true).
Proof.
  unfold open_rb. destruct (fs !! p) as [[d r]|]; [|done].
  simpl. destruct r; [|done]. by intros [= ->].
Qed.

(** C9, as stated, fails: the bytes written over [save_path] after the
    extracted member failed validation are the archive as downloaded; they
    carry the gzip magic and are not decompressed. *)
Lemma attempt_tar_fallback_not_gunzipped :
  has_gzip_magic bundle_tgz = true ∧
  safe_gunzip bundle_env bundle_tgz = Some bundle_tar ∧
  bundle_tar ≠ bundle_tgz ∧
  w_fs (attempt bundle_env "ftp://host/bundle.tar.gz" "a.pdf" empty_world).2
    !! "a.pdf" = Some (File bundle_tgz true) ∧
  w_trace (attempt bundle_env "ftp://host/bundle.tar.gz" "a.pdf" empty_world).2
  = [EvFetch "ftp://host/bundle.tar.gz" "a.pdf.tmp";
     EvValidate "a.pdf" false; EvValidate "a.pdf" false].
Proof. vm_compute. repeat split; done. Qed.

(** C9, amended. For a URL ending in [.tar.gz], when the extracted member
    fails validation the attempt goes on: the downloaded archive bytes,
    unchanged whether or not they carry the gzip magic, are written over
    [save_path] and validated a second time; the attempt returns true when
    that validation succeeds and ends in failure only when it fails too. *)
Theorem attempt_tar_member_invalid
    (E : environment) (url save_path : string) (w w1 : world) (raw : bytes)
    (members : list (string * bytes)) (name : string) (content : bytes) :
  str_endswith url ".tar.gz" = true →
  download_stream E url (temp_of save_path) w = (Val (), w1) →
  open_rb (w_fs w1) (temp_of save_path) = Val raw →
  tarfile_open E raw = Some members →
  first_pdf_member members = Some (name, content) →
  pdf_shaped content = false →
  ∃ fs',
    attempt E url save_path w
    = (Val (if pdf_shaped raw then Return true else Fallthrough),
       World fs' (w_clock w1)
             (w_trace w1 ++ [EvValidate save_path false;
                             EvValidate save_path (pdf_shaped raw)])) ∧
    fs' !! save_path = Some (File raw true) ∧
    fs' !! temp_of save_path = None ∧
    is_valid_pdf fs' save_path = pdf_shaped raw.
Proof.
  intros Htar Hdl Hread Hopen Hfind Hbad.
  pose proof (pdf_name_not_tmp name save_path
                (first_pdf_member_name _ _ _ Hfind)) as Hname.
  pose proof (tmp_not_save_path save_path) as Hsave.
  pose proof (open_rb_Val _ _ _ Hread) as Htmp.
  unfold attempt, try_except, attempt_try.
  rewrite bind_run, Hdl, bind_run. unfold read_file, lift_fs at 1.
  rewrite Hread, Htar. cbn [orb].
  rewrite !bind_run, extract_pdf_from_tar_gz_run, Hread, Hopen, Hfind.
  cbn [ret truthy]. rewrite bind_run, remove_run. cbn [w_fs w_clock w_trace].
  rewrite lookup_insert_ne, lookup_delete_ne, lookup_insert_ne, Htmp by done.
  rewrite bind_run, validate_run. cbn [w_fs w_clock w_trace].
  set (fs3 := delete (temp_of save_path) _).
  assert (fs3 !! save_path = Some (File content true)) as Hsaved.
  { subst fs3. by rewrite lookup_delete_ne, lookup_insert_eq. }
  assert (is_valid_pdf fs3 save_path = false) as ->.
  { by rewrite is_valid_pdf_file, Hsaved. }
  rewrite write_final_run. cbn [w_fs w_clock w_trace].
  unfold open_wb. rewrite Hsaved. cbn [f_readable].
  set (fs' := delete (temp_of save_path) _).
  assert (fs' !! save_path = Some (File raw true)) as Hfinal.
  { subst fs'. by rewrite lookup_delete_ne, lookup_insert_eq. }
  assert (is_valid_pdf fs' save_path = pdf_shaped raw) as Hvalid.
  { by rewrite is_valid_pdf_file, Hfinal. }
  exists fs'. rewrite Hvalid, <- app_assoc. cbn [app].
  split; [by destruct (pdf_shaped raw)|].
  split; [done|]. split; [|done].
  subst fs'. apply lookup_delete_eq.
Qed.

(** C9, amended, at an archive whose only member is a small [paper.pdf]. *)
Lemma attempt_tar_member_invalid_witness :
  ∃ fs',
    attempt bundle_env "ftp://host/bundle.tar.gz" "a.pdf" empty_world
    = (Val (if pdf_shaped bundle_tgz then Return true else Fallthrough),
       World fs' 1
             ([EvFetch "ftp://host/bundle.tar.gz" "a.pdf.tmp"]
              ++ [EvValidate "a.pdf" false;
                  EvValidate "a.pdf" (pdf_shaped bundle_tgz)])) ∧
    fs' !! "a.pdf" = Some (File bundle_tgz true) ∧
    fs' !! temp_of "a.pdf" = None ∧
    is_valid_pdf fs' "a.pdf" = pdf_shaped bundle_tgz.
Proof.
  refine (attempt_tar_member_invalid bundle_env "ftp://host/bundle.tar.gz"
            "a.pdf" empty_world
            (World {[ "a.pdf.tmp" := File bundle_tgz true ]} 1
                   [EvFetch "ftp://host/bundle.tar.gz" "a.pdf.tmp"])
            bundle_tgz [("paper.pdf", b "%PDF-1.4 tiny")] "paper.pdf"
            (b "%PDF-1.4 tiny") _ _ _ _ _ _); reflexivity.
Defined.

(** ** Pipeline driver *)

Lemma download_pdf_spec
    (E : environment) (url save_path : string) (retries : Z) (w : world) :
  ∃ v fs' clock' new,
    download_pdf E url save_path retries w
    = (Val v, World fs' clock' (w_trace w ++ new)) ∧
    forallb is_download_event new = true ∧
    (v = true →
     is_valid_pdf fs' save_path = true ∧
     ∃ t, new = t ++ [EvValidate save_path true]).
Proof. apply attempts_spec. Qed.

Lemma appended_app (t1 t2 : list event) :
  appended (t1 ++ t2) = appended t1 ++ appended t2.
Proof. apply omap_app. Qed.

Lemma resolved_urls_app (t1 t2 : list event) :
  resolved_urls (t1 ++ t2) = resolved_urls t1 ++ resolved_urls t2.
Proof. apply omap_app. Qed.

Lemma download_events_appended (t : list event) :
  forallb is_download_event t = true → appended t = [].
Proof.
  induction t as [|e t IH]; [done|]. cbn [forallb].
  intros [He Ht]%andb_true_iff. unfold appended in *. cbn [omap].
  destruct e; try discriminate; cbn; auto.
Qed.

Lemma download_events_resolved_urls (t : list event) :
  forallb is_download_event t = true → resolved_urls t = [].
Proof.
  induction t as [|e t IH]; [done|]. cbn [forallb].
  intros [He Ht]%andb_true_iff. unfold resolved_urls in *. cbn [omap].
  destruct e; try discriminate; cbn; auto.
Qed.

Lemma download_events_justified (t : list event) :
  forallb is_download_event t = true → ∀ prev, justified_from prev t = true.
Proof.
  induction t as [|e t IH]; [done|]. cbn [forallb justified_from].
  intros [He Ht]%andb_true_iff prev. rewrite IH by done.
  by destruct e.
Qed.

Lemma justified_from_app (prev : option event) (t1 t2 : list event) :
  justified_from prev (t1 ++ t2)
  = justified_from prev t1 && justified_from (last_event prev t1) t2.
Proof.
  revert prev. induction t1 as [|e t1 IH]; intros prev; [done|].
  cbn [app justified_from]. rewrite IH, andb_assoc. f_equal.
  unfold last_event. destruct t1 as [|e' t1]; [done|].
  rewrite last_cons_cons.
  destruct (last (e' :: t1)) eqn:Hlast; [done|].
  by apply last_None in Hlast.
Qed.

Lemma justified_from_split (t1 t2 : list event) (p : string) :
  ∀ prev, justified_from prev (t1 ++ EvAppend p :: t2) = true →
          last_event prev t1 = Some (EvValidate p true).
Proof.
  intros prev. rewrite justified_from_app. cbn [justified_from].
  rewrite !andb_true_iff, bool_decide_eq_true. tauto.
Qed.

Lemma last_event_None (t : list event) (e : event) :
  last_event None t = Some e → ∃ t0, t = t0 ++ [e].
Proof.
  unfold last_event. destruct (last t) as [e'|] eqn:Hlast; [|done].
  intros [= ->]. by apply last_Some in Hlast.
Qed.

Lemma driver_loop_stop
    (E : environment) (drug folder : string) (max_pdfs : Z)
    (ids : list json) (count : Z) (files : list string) (w : world) :
  max_pdfs ≤ count →
  driver_loop E drug folder max_pdfs ids (count, files) w
  = (Val (count, files), w).
Proof.
  intros Hmax. destruct ids as [|id rest]; [done|]. cbn [driver_loop].
  by destruct (Z.leb_spec max_pdfs count); [|lia].
Qed.

Lemma log_run (e : event) (w : world) :
  log e w = (Val (), World (w_fs w) (w_clock w) (w_trace w ++ [e])).
Proof. done. Qed.

Lemma resolved_urls_resolve (u : string) (t : list event) :
  resolved_urls (EvResolve u :: t) = u :: resolved_urls t.
Proof. done. Qed.

Lemma appended_resolve (u : string) (t : list event) :
  appended (EvResolve u :: t) = appended t.
Proof. done. Qed.

Lemma driver_loop_spec
    (E : environment) (drug folder : string) (max_pdfs : Z) (ids : list json) :
  ∀ count files w,
  ∃ count' files' fs' clock' new k,
    driver_loop E drug folder max_pdfs ids (count, files) w
    = (Val (count', files'), World fs' clock' (w_trace w ++ new)) ∧
    files' = files ++ appended new ∧
    count' = count + Z.of_nat (length (appended new)) ∧
    (count ≤ max_pdfs → count' ≤ max_pdfs) ∧
    (∀ prev, justified_from prev new = true) ∧
    resolved_urls new = map (oa_url E) (take k ids) ∧
    (max_pdfs ≤ count → new = []) ∧
    (count < max_pdfs → count' = max_pdfs →
     ∃ t p, new = t ++ [EvAppend p; EvSuccess p]).
Proof.
  induction ids as [|id rest IH]; intros count files w.
  { exists count, files, (w_fs w), (w_clock w), [], O.
    cbn [driver_loop ret]. rewrite !app_nil_r. destruct w.
    repeat split; try done; cbn; lia. }
  cbn [driver_loop].
  destruct (Z.leb_spec max_pdfs count) as [Hstop|Hgo].
  { exists count, files, (w_fs w), (w_clock w), [], O.
    cbn [ret]. rewrite !app_nil_r. destruct w.
    repeat split; try done; cbn; lia. }
  rewrite bind_run, get_pdf_link_from_pmcid_run.
  set (w1 := after_request (EvResolve (oa_url E id)) w).
  assert (∃ count' files' fs' clock' new k,
       driver_loop E drug folder max_pdfs rest (count, files) w1
       = (Val (count', files'), World fs' clock' (w_trace w ++ new)) ∧
       files' = files ++ appended new ∧
       count' = count + Z.of_nat (length (appended new)) ∧
       (count ≤ max_pdfs → count' ≤ max_pdfs) ∧
       (∀ prev, justified_from prev new = true) ∧
       resolved_urls new = map (oa_url E) (take k (id :: rest)) ∧
       (max_pdfs ≤ count → new = []) ∧
       (count < max_pdfs → count' = max_pdfs →
        ∃ t p, new = t ++ [EvAppend p; EvSuccess p])) as Hskip.
  { destruct (IH count files w1)
      as (c' & f' & fs' & clock' & new & k & -> & -> & -> & Hle & Hjust
          & Hres & _ & Hlast).
    exists (count + Z.of_nat (length (appended new))), (files ++ appended new),
      fs', clock', (EvResolve (oa_url E id) :: new), (S k).
    subst w1. unfold after_request. cbn [w_trace].
    rewrite <- app_assoc. cbn [app].
    rewrite appended_resolve, resolved_urls_resolve, Hres.
    split; [done|]. split; [done|]. split; [done|]. split; [done|].
    split; [intros prev; cbn [justified_from]; by rewrite Hjust|].
    split; [done|]. split; [lia|].
    intros Hlt Heq. destruct (Hlast Hlt Heq) as (t & p & ->).
    by exists (EvResolve (oa_url E id) :: t), p. }
  destruct (resolved _) as [[|c url]|]; [done| |done].
  clear Hskip. rewrite bind_run.
  set (save_path := save_path_of E drug folder id).
  destruct (download_pdf_spec E (String c url) save_path 3 w1)
    as (v & fs2 & clock2 & newd & -> & Hdl & Hvalid).
  subst w1. unfold after_request. cbn [w_trace].
  destruct v.
  - destruct Hvalid as [Hok [t Ht]]; [done|].
    repeat (rewrite bind_run, log_run; cbn [w_fs w_clock w_trace]).
    match goal with |- context [driver_loop _ _ _ _ _ ?st ?w3] =>
      destruct (IH (count + 1) (files ++ [save_path]) w3)
        as (c' & f' & fs' & clock' & new & k & -> & -> & -> & Hle & Hjust
            & Hres & Hnil & Hlast)
    end.
    cbn [w_trace].
    exists (count + 1 + Z.of_nat (length (appended new))),
      ((files ++ [save_path]) ++ appended new), fs', clock',
      (EvResolve (oa_url E id)
       :: newd ++ [EvAppend save_path; EvSuccess save_path] ++ new), (S k).
    split; [by rewrite <- !app_assoc|].
    assert (appended (EvResolve (oa_url E id)
                      :: newd ++ [EvAppend save_path; EvSuccess save_path] ++ new)
            = save_path :: appended new) as Happ.
    { change (EvResolve (oa_url E id) :: ?l) with ([EvResolve (oa_url E id)] ++ l).
      rewrite !appended_app, (download_events_appended newd) by done. done. }
    rewrite Happ.
    split; [by rewrite <- app_assoc|].
    split; [cbn [length]; lia|].
    split; [lia|].
    split.
    { intros prev. cbn [justified_from andb].
      rewrite justified_from_app, download_events_justified by done.
      cbn [andb]. rewrite Ht. unfold last_event.
      rewrite last_snoc. cbn [app justified_from andb].
      rewrite bool_decide_eq_true_2 by done. cbn [andb]. apply Hjust. }
    split.
    { change (EvResolve (oa_url E id) :: ?l) with ([EvResolve (oa_url E id)] ++ l).
      rewrite !resolved_urls_app, (download_events_resolved_urls newd) by done.
      cbn [take map]. by rewrite <- Hres. }
    split; [lia|].
    intros _ Heq.
    destruct (Z.le_gt_cases max_pdfs (count + 1)) as [Hreached|Hmore].
    + rewrite (Hnil Hreached).
      by exists (EvResolve (oa_url E id) :: newd), save_path.
    + destruct Hlast as (t' & p & ->); [lia|lia|].
      exists (EvResolve (oa_url E id)
              :: newd ++ [EvAppend save_path; EvSuccess save_path] ++ t'), p.
      cbn [app]. by rewrite <- !app_assoc.
  - rewrite bind_run, log_run. cbn [w_fs w_clock w_trace].
    match goal with |- context [driver_loop _ _ _ _ _ ?st ?w3] =>
      destruct (IH count files w3)
        as (c' & f' & fs' & clock' & new & k & -> & -> & -> & Hle & Hjust
            & Hres & Hnil & Hlast)
    end.
    cbn [w_trace].
    exists (count + Z.of_nat (length (appended new))),
      (files ++ appended new), fs', clock',
      (EvResolve (oa_url E id) :: newd ++ [EvWarning (fmt E id)] ++ new), (S k).
    split; [by rewrite <- !app_assoc|].
    assert (appended (EvResolve (oa_url E id)
                      :: newd ++ [EvWarning (fmt E id)] ++ new)
            = appended new) as Happ.
    { change (EvResolve (oa_url E id) :: ?l) with ([EvResolve (oa_url E id)] ++ l).
      rewrite !appended_app, (download_events_appended newd) by done. done. }
    rewrite Happ.
    split; [done|]. split; [done|]. split; [done|].
    split.
    { intros prev. cbn [justified_from andb].
      rewrite justified_from_app, download_events_justified by done.
      cbn [app justified_from andb]. apply Hjust. }
    split.
    { change (EvResolve (oa_url E id) :: ?l) with ([EvResolve (oa_url E id)] ++ l).
      rewrite !resolved_urls_app, (download_events_resolved_urls newd) by done.
      cbn [take map]. by rewrite <- Hres. }
    split; [lia|].
    intros Hlt Heq. destruct (Hlast Hlt Heq) as (t' & p & ->).
    exists (EvResolve (oa_url E id) :: newd ++ [EvWarning (fmt E id)] ++ t'), p.
    cbn [app]. by rewrite <- !app_assoc.
Qed.

Lemma justified_from_None (new : list event) :
  justified_from None new = true →
  ∀ t1 p t2, new = t1 ++ EvAppend p :: t2 →
             ∃ t0, t1 = t0 ++ [EvValidate p true].
Proof.
  intros Hjust t1 p t2 ->.
  by apply last_event_None, (justified_from_split t1 t2 p None).
Qed.

(** One pass of the driver's loop in which the download fails: a warning is
    shown and nothing is appended. *)
Lemma driver_loop_failed_download
    (E : environment) (drug folder : string) (max_pdfs : Z)
    (id : json) (rest : list json) (count : Z) (files : list string)
    (w w2 : world) (c : ascii) (url : string) :
  count < max_pdfs →
  resolved (net_oa E (oa_url E id) (w_clock w)) = Some (String c url) →
  download_pdf E (String c url) (save_path_of E drug folder id) 3
    (after_request (EvResolve (oa_url E id)) w) = (Val false, w2) →
  driver_loop E drug folder max_pdfs (id :: rest) (count, files) w
  = driver_loop E drug folder max_pdfs rest (count, files)
      (World (w_fs w2) (w_clock w2) (w_trace w2 ++ [EvWarning (fmt E id)])).
Proof.
  intros Hgo Hres Hdl. cbn [driver_loop].
  destruct (Z.leb_spec max_pdfs count); [lia|].
  rewrite bind_run, get_pdf_link_from_pmcid_run, Hres.
  by rewrite bind_run, Hdl, bind_run, log_run.
Qed.

(** C4. [download_pdf] returns true only in a state in which
    [is_valid_pdf save_path] holds, its last step being that validation,
    whichever way the file was produced; and the driver appends a path to the
    acquired files only right after such a validation of that path: a failed
    download appends nothing. *)
Theorem acquired_files_are_validated (E : environment) :
  (∀ url save_path retries w,
     (download_pdf E url save_path retries w).1 = Val true →
     is_valid_pdf (w_fs (download_pdf E url save_path retries w).2) save_path
     = true ∧
     ∃ t, w_trace (download_pdf E url save_path retries w).2
          = t ++ [EvValidate save_path true]) ∧
  (∀ drug folder max_pdfs pmc_ids w,
     ∃ count files w' new,
       driver_loop E drug folder max_pdfs pmc_ids (0, []) w
       = (Val (count, files), w') ∧
       w_trace w' = w_trace w ++ new ∧
       files = appended new ∧
       ∀ t1 p t2, new = t1 ++ EvAppend p :: t2 →
                  ∃ t0, t1 = t0 ++ [EvValidate p true]) ∧
  (∀ drug folder max_pdfs id rest count files w w2 c url,
     count < max_pdfs →
     resolved (net_oa E (oa_url E id) (w_clock w)) = Some (String c url) →
     download_pdf E (String c url) (save_path_of E drug folder id) 3
       (after_request (EvResolve (oa_url E id)) w) = (Val false, w2) →
     driver_loop E drug folder max_pdfs (id :: rest) (count, files) w
     = driver_loop E drug folder max_pdfs rest (count, files)
         (World (w_fs w2) (w_clock w2) (w_trace w2 ++ [EvWarning (fmt E id)]))).
Proof.
  split; [|split].
  - intros url save_path retries w.
    destruct (download_pdf_spec E url save_path retries w)
      as (v & fs' & clock' & new & -> & _ & Hvalid).
    cbn [fst snd w_fs w_trace]. intros [= ->].
    destruct Hvalid as [Hok [t ->]]; [done|].
    split; [done|]. exists (w_trace w ++ t). by rewrite app_assoc.
  - intros drug folder max_pdfs pmc_ids w.
    destruct (driver_loop_spec E drug folder max_pdfs pmc_ids 0 [] w)
      as (count & files & fs' & clock' & new & k & -> & -> & _ & _ & Hjust & _).
    eexists _, _, _, new. split; [reflexivity|].
    split; [done|]. split; [done|].
    by apply justified_from_None.
  - intros drug folder max_pdfs id rest count files w w2 c url Hgo Hres Hdl.
    by apply (driver_loop_failed_download E drug folder max_pdfs id rest
                count files w w2 c url).
Qed.

(** The three ways a file gets to [save_path], each one ending in a
    validation that succeeds: the payload as sent, a gzip payload that is
    decompressed, and a member extracted from a tar-gzip archive. *)
Example download_pdf_direct :
  (download_pdf aspirin_env "http://host/4.pdf" "a.pdf" 3 empty_world).1
  = Val true.
Proof. vm_compute. reflexivity. Qed.

Example download_pdf_gunzipped :
  (λ r, (r.1, w_trace r.2))
    (download_pdf gzipped_pdf_env "http://host/a.pdf" "a.pdf" 3 empty_world)
  = (Val true, [EvFetch "http://host/a.pdf" "a.pdf.tmp";
                EvValidate "a.pdf" true]).
Proof. vm_compute. reflexivity. Qed.

Example download_pdf_tar_extracted :
  (λ r, (r.1, w_trace r.2))
    (download_pdf archived_pdf_env "ftp://host/a.tar.gz" "a.pdf" 3 empty_world)
  = (Val true, [EvFetch "ftp://host/a.tar.gz" "a.pdf.tmp";
                EvValidate "a.pdf" true]).
Proof. vm_compute. reflexivity. Qed.

(** One pass of the driver's loop for an ID that resolves to no URL
    ([None], or an empty [href]): the loop goes on with the next ID. *)
Lemma driver_loop_skip
    (E : environment) (drug folder : string) (max_pdfs : Z)
    (id : json) (rest : list json) (count : Z) (files : list string)
    (w : world) :
  count < max_pdfs →
  resolved (net_oa E (oa_url E id) (w_clock w)) = None ∨
  resolved (net_oa E (oa_url E id) (w_clock w)) = Some "" →
  driver_loop E drug folder max_pdfs (id :: rest) (count, files) w
  = driver_loop E drug folder max_pdfs rest (count, files)
      (after_request (EvResolve (oa_url E id)) w).
Proof.
  intros Hgo Hres. cbn [driver_loop].
  destruct (Z.leb_spec max_pdfs count); [lia|].
  rewrite bind_run, get_pdf_link_from_pmcid_run.
  by destruct Hres as [-> | ->].
Qed.

(** ** Successful downloads and the driver's counter *)

Lemma validated_app (t1 t2 : list event) :
  validated (t1 ++ t2) = validated t1 ++ validated t2.
Proof. apply omap_app. Qed.

Ltac validated_done :=
  simpl; rewrite <- ?app_assoc; simpl;
  eexists _, _, _; split; [reflexivity|]; done.

(** One pass of [download_pdf]'s loop returns [True] exactly when a
    validation succeeded in it, and then it is the only one. *)
Lemma attempt_validated (E : environment) (url save_path : string) (w : world) :
  ∃ r fs' new,
    attempt E url save_path w
    = (Val r, World fs' (S (w_clock w))
                (w_trace w ++ EvFetch url (temp_of save_path) :: new)) ∧
    validated new = match r with Return true => [save_path] | _ => [] end.
Proof.
  unfold attempt, try_except, attempt_try.
  rewrite bind_run.
  destruct (download_stream_frame E url (temp_of save_path) w)
    as (o & fs1 & ->).
  destruct o as [[]|e];
    [|rewrite bind_run, remove_if_exists_run; validated_done].
  rewrite bind_run. unfold read_file, lift_fs at 1. cbn [w_fs].
  destruct (open_rb fs1 (temp_of save_path)) as [raw|e];
    [|rewrite bind_run, remove_if_exists_run; validated_done].
  destruct (str_endswith url ".tar.gz") eqn:Htar; cbn [orb].
  - rewrite !bind_run.
    destruct (extract_pdf_from_tar_gz_frame E (temp_of save_path) save_path
                (World fs1 (S (w_clock w))
                   (w_trace w ++ [EvFetch url (temp_of save_path)])))
      as (v & fs2 & ->).
    cbn [ret w_clock w_trace]. destruct (truthy v).
    + rewrite bind_run, remove_run. cbn [w_fs].
      destruct (fs2 !! temp_of save_path);
        [|rewrite bind_run, remove_if_exists_run; validated_done].
      rewrite bind_run, validate_run. cbn [w_fs w_clock w_trace].
      destruct (is_valid_pdf (delete _ fs2) save_path) eqn:Hok.
      * validated_done.
      * rewrite write_final_run. cbn [w_fs w_clock w_trace].
        destruct (is_valid_pdf (delete _ (open_wb _ _ _)) save_path) eqn:Hok2;
          validated_done.
    + destruct (has_gzip_magic raw).
      * destruct (safe_gunzip E raw) as [[|c d]|].
        -- rewrite bind_run, remove_if_exists_run. validated_done.
        -- rewrite write_final_run. cbn [w_fs w_clock w_trace].
           destruct (is_valid_pdf (delete _ (open_wb _ _ _)) save_path) eqn:Hok2;
             validated_done.
        -- rewrite bind_run, remove_if_exists_run. validated_done.
      * rewrite write_final_run. cbn [w_fs w_clock w_trace].
        destruct (is_valid_pdf (delete _ (open_wb _ _ _)) save_path) eqn:Hok2;
          validated_done.
  - destruct (has_gzip_magic raw).
    + rewrite bind_run. cbn [ret].
      destruct (safe_gunzip E raw) as [[|c d]|].
      * rewrite bind_run, remove_if_exists_run. validated_done.
      * rewrite write_final_run. cbn [w_fs w_clock w_trace].
        destruct (is_valid_pdf (delete _ (open_wb _ _ _)) save_path) eqn:Hok2;
          validated_done.
      * rewrite bind_run, remove_if_exists_run. validated_done.
    + rewrite write_final_run. cbn [w_fs w_clock w_trace].
      destruct (is_valid_pdf (delete _ (open_wb _ _ _)) save_path) eqn:Hok2;
        validated_done.
Qed.

Lemma attempts_validated (E : environment) (url save_path : string) (n : nat) :
  ∀ w, ∃ v fs' clock' new,
    attempts E url save_path n w
    = (Val v, World fs' clock' (w_trace w ++ new)) ∧
    forallb is_download_event new = true ∧
    validated new = if v then [save_path] else [].
Proof.
  induction n as [|n IH]; intros w; cbn [attempts].
  - exists false, (w_fs w), (w_clock w), [].
    rewrite app_nil_r. by destruct w.
  - destruct (attempts_spec E url save_path (S n) w)
      as (v0 & fs0 & clock0 & new0 & Hrun0 & Hdl0 & _).
    cbn [attempts] in Hrun0. revert Hrun0.
    rewrite !bind_run.
    destruct (attempt_validated E url save_path w)
      as (r & fs1 & new1 & -> & Hval1).
    destruct r as [v|].
    + intros [= <- <- <- Heq%app_inv_head]. subst new0.
      exists v, fs1, (S (w_clock w)), (EvFetch url (temp_of save_path) :: new1).
      split; [done|]. split; [done|].
      change (validated (EvFetch url (temp_of save_path) :: new1))
        with (validated new1).
      rewrite Hval1. by destruct v.
    + rewrite !bind_run. unfold sleep, log at 1 2. cbn [w_fs w_clock w_trace].
      match goal with |- context [attempts _ _ _ _ ?w1] =>
        destruct (IH w1) as (v & fs' & clock' & new & -> & Hnew & Hv)
      end.
      cbn [w_trace]. rewrite <- !app_assoc.
      intros [= <- <- <- Heq%app_inv_head]. subst new0.
      exists v, fs', clock'. eexists. split; [reflexivity|].
      split; [done|].
      rewrite !validated_app.
      change (validated (EvFetch url (temp_of save_path) :: new1))
        with (validated new1).
      by rewrite Hval1, Hv.
Qed.

(** [download_pdf] returns [True] exactly when one of its validations
    succeeded, and then no other did. *)
Lemma download_pdf_validated
    (E : environment) (url save_path : string) (retries : Z) (w : world) :
  ∃ v fs' clock' new,
    download_pdf E url save_path retries w
    = (Val v, World fs' clock' (w_trace w ++ new)) ∧
    forallb is_download_event new = true ∧
    validated new = if v then [save_path] else [].
Proof. apply attempts_validated. Qed.

Lemma validated_resolve (u : string) (t : list event) :
  validated (EvResolve u :: t) = validated t.
Proof. done. Qed.

(** The driver appends exactly the save paths of the downloads that
    returned [True], in their order. *)
Lemma driver_loop_validated
    (E : environment) (drug folder : string) (max_pdfs : Z) (ids : list json) :
  ∀ count files w,
  ∃ count' files' fs' clock' new,
    driver_loop E drug folder max_pdfs ids (count, files) w
    = (Val (count', files'), World fs' clock' (w_trace w ++ new)) ∧
    appended new = validated new.
Proof.
  induction ids as [|id rest IH]; intros count files w.
  { exists count, files, (w_fs w), (w_clock w), [].
    cbn [driver_loop ret]. rewrite app_nil_r. by destruct w. }
  cbn [driver_loop].
  destruct (Z.leb_spec max_pdfs count) as [Hstop|Hgo].
  { exists count, files, (w_fs w), (w_clock w), [].
    cbn [ret]. rewrite app_nil_r. by destruct w. }
  rewrite bind_run, get_pdf_link_from_pmcid_run.
  set (w1 := after_request (EvResolve (oa_url E id)) w).
  assert (∃ count' files' fs' clock' new,
       driver_loop E drug folder max_pdfs rest (count, files) w1
       = (Val (count', files'), World fs' clock' (w_trace w ++ new)) ∧
       appended new = validated new) as Hskip.
  { destruct (IH count files w1) as (c' & f' & fs' & clock' & new & -> & Heq).
    exists c', f', fs', clock', (EvResolve (oa_url E id) :: new).
    subst w1. unfold after_request. cbn [w_trace].
    rewrite <- app_assoc. cbn [app].
    by rewrite appended_resolve, validated_resolve. }
  destruct (resolved _) as [[|c url]|]; [done| |done].
  clear Hskip. rewrite bind_run.
  set (save_path := save_path_of E drug folder id).
  destruct (download_pdf_validated E (String c url) save_path 3 w1)
    as (v & fs2 & clock2 & newd & -> & Hdl & Hval).
  subst w1. unfold after_request. cbn [w_trace].
  destruct v.
  - repeat (rewrite bind_run, log_run; cbn [w_fs w_clock w_trace]).
    match goal with |- context [driver_loop _ _ _ _ _ ?st ?w3] =>
      destruct (IH (count + 1) (files ++ [save_path]) w3)
        as (c' & f' & fs' & clock' & new & -> & Heq)
    end.
    cbn [w_trace].
    exists c', f', fs', clock',
      ([EvResolve (oa_url E id)]
       ++ newd ++ [EvAppend save_path; EvSuccess save_path] ++ new).
    split; [by rewrite <- !app_assoc|].
    rewrite !appended_app, !validated_app, Hval, Heq.
    by rewrite (download_events_appended newd).
  - rewrite bind_run, log_run. cbn [w_fs w_clock w_trace].
    match goal with |- context [driver_loop _ _ _ _ _ ?st ?w3] =>
      destruct (IH count files w3)
        as (c' & f' & fs' & clock' & new & -> & Heq)
    end.
    cbn [w_trace].
    exists c', f', fs', clock',
      ([EvResolve (oa_url E id)] ++ newd ++ [EvWarning (fmt E id)] ++ new).
    split; [by rewrite <- !app_assoc|].
    rewrite !appended_app, !validated_app, Hval, Heq.
    by rewrite (download_events_appended newd).
Qed.

(** One pass of the driver's loop in which the download succeeds: the
    counter goes up by one, the save path is appended and a success notice
    is shown. *)
Lemma driver_loop_successful_download
    (E : environment) (drug folder : string) (max_pdfs : Z)
    (id : json) (rest : list json) (count : Z) (files : list string)
    (w w2 : world) (c : ascii) (url : string) :
  count < max_pdfs →
  resolved (net_oa E (oa_url E id) (w_clock w)) = Some (String c url) →
  download_pdf E (String c url) (save_path_of E drug folder id) 3
    (after_request (EvResolve (oa_url E id)) w) = (Val true, w2) →
  driver_loop E drug folder max_pdfs (id :: rest) (count, files) w
  = driver_loop E drug folder max_pdfs rest
      (count + 1, files ++ [save_path_of E drug folder id])
      (World (w_fs w2) (w_clock w2)
         (w_trace w2 ++ [EvAppend (save_path_of E drug folder id);
                         EvSuccess (save_path_of E drug folder id)])).
Proof.
  intros Hgo Hres Hdl. cbn [driver_loop].
  destruct (Z.leb_spec max_pdfs count); [lia|].
  rewrite bind_run, get_pdf_link_from_pmcid_run, Hres.
  rewrite bind_run, Hdl.
  repeat (rewrite bind_run, log_run; cbn [w_fs w_clock w_trace]).
  by rewrite <- app_assoc.
Qed.

(** C5. The driver resolves the IDs in the order returned; an ID that
    resolves to no URL is skipped and the loop goes on; a download that
    returns [True] raises the counter by one and appends its save path, one
    that returns [False] leaves both as they were; and once the counter
    reaches [max_pdfs] no further ID is attempted.  So the acquired files are
    exactly the save paths of the downloads that returned [True], the
    counter is their number, it is at most [max_pdfs], and a run that
    reaches [max_pdfs] ends with the append and the success notice of its
    last download. *)
Theorem driver_loop_correct
    (E : environment) (drug folder : string) (max_pdfs : Z)
    (pmc_ids : list json) (w : world) :
  0 ≤ max_pdfs →
  (∃ count files w' new k,
    driver_loop E drug folder max_pdfs pmc_ids (0, []) w
    = (Val (count, files), w') ∧
    w_trace w' = w_trace w ++ new ∧
    files = appended new ∧
    files = validated new ∧
    Z.of_nat (length files) = count ∧
    count ≤ max_pdfs ∧
    resolved_urls new = map (oa_url E) (take k pmc_ids) ∧
    (count = max_pdfs → 0 < max_pdfs →
     ∃ t p, new = t ++ [EvAppend p; EvSuccess p])) ∧
  (∀ url save_path retries w0,
     ∃ v w2 newd,
       download_pdf E url save_path retries w0 = (Val v, w2) ∧
       w_trace w2 = w_trace w0 ++ newd ∧
       validated newd = if v then [save_path] else []) ∧
  (∀ id rest c f w0,
     c < max_pdfs →
     resolved (net_oa E (oa_url E id) (w_clock w0)) = None ∨
     resolved (net_oa E (oa_url E id) (w_clock w0)) = Some "" →
     driver_loop E drug folder max_pdfs (id :: rest) (c, f) w0
     = driver_loop E drug folder max_pdfs rest (c, f)
         (after_request (EvResolve (oa_url E id)) w0)) ∧
  (∀ id rest c f w0 w2 ch url,
     c < max_pdfs →
     resolved (net_oa E (oa_url E id) (w_clock w0)) = Some (String ch url) →
     download_pdf E (String ch url) (save_path_of E drug folder id) 3
       (after_request (EvResolve (oa_url E id)) w0) = (Val true, w2) →
     driver_loop E drug folder max_pdfs (id :: rest) (c, f) w0
     = driver_loop E drug folder max_pdfs rest
         (c + 1, f ++ [save_path_of E drug folder id])
         (World (w_fs w2) (w_clock w2)
            (w_trace w2 ++ [EvAppend (save_path_of E drug folder id);
                            EvSuccess (save_path_of E drug folder id)]))) ∧
  (∀ id rest c f w0 w2 ch url,
     c < max_pdfs →
     resolved (net_oa E (oa_url E id) (w_clock w0)) = Some (String ch url) →
     download_pdf E (String ch url) (save_path_of E drug folder id) 3
       (after_request (EvResolve (oa_url E id)) w0) = (Val false, w2) →
     driver_loop E drug folder max_pdfs (id :: rest) (c, f) w0
     = driver_loop E drug folder max_pdfs rest (c, f)
         (World (w_fs w2) (w_clock w2)
            (w_trace w2 ++ [EvWarning (fmt E id)]))) ∧
  (∀ ids c f w0,
     max_pdfs ≤ c →
     driver_loop E drug folder max_pdfs ids (c, f) w0 = (Val (c, f), w0)).
Proof.
  intros Hmax. split; [|split; [|split; [|split; [|split]]]].
  - destruct (driver_loop_spec E drug folder max_pdfs pmc_ids 0 [] w)
      as (count & files & fs' & clock' & new & k & Hrun & -> & -> & Hle & _
          & Hres & _ & Hlast).
    destruct (driver_loop_validated E drug folder max_pdfs pmc_ids 0 [] w)
      as (count2 & files2 & fs2 & clock2 & new2 & Hrun2 & Hval).
    rewrite Hrun in Hrun2.
    injection Hrun2 as _ _ _ _ Hnew%app_inv_head. subst new2.
    eexists _, _, _, new, k. split; [exact Hrun|].
    cbn [app] in *.
    split; [done|]. split; [done|]. split; [done|]. split; [lia|].
    split; [lia|]. split; [done|].
    intros Heq Hpos. by apply Hlast.
  - intros url save_path retries w0.
    destruct (download_pdf_validated E url save_path retries w0)
      as (v & fs2 & clock2 & newd & -> & _ & Hval).
    by eexists v, _, newd.
  - intros id rest c f w0 Hgo Hnone. by apply driver_loop_skip.
  - intros id rest c f w0 w2 ch url Hgo Hres Hdl.
    by apply (driver_loop_successful_download E drug folder max_pdfs id rest
                c f w0 w2 ch url).
  - intros id rest c f w0 w2 ch url Hgo Hres Hdl.
    by apply (driver_loop_failed_download E drug folder max_pdfs id rest
                c f w0 w2 ch url).
  - intros ids c f w0 Hstop. by apply driver_loop_stop.
Qed.

(** C5 on the scenario of the specification, with [max_pdfs = 1]: the first
    three downloads fail, the fourth returns [True] and is the one file
    acquired, and the fifth ID is never resolved. *)
Lemma driver_loop_correct_witness :
  (∃ count files w' new k,
    driver_loop aspirin_env "aspirin" "out" 1 aspirin_ids (0, []) empty_world
    = (Val (count, files), w') ∧
    w_trace w' = w_trace empty_world ++ new ∧
    files = appended new ∧
    files = validated new ∧
    Z.of_nat (length files) = count ∧
    count ≤ 1 ∧
    resolved_urls new = map (oa_url aspirin_env) (take k aspirin_ids) ∧
    (count = 1 → 0 < 1 → ∃ t p, new = t ++ [EvAppend p; EvSuccess p])) ∧
  (∀ url save_path retries w0,
     ∃ v w2 newd,
       download_pdf aspirin_env url save_path retries w0 = (Val v, w2) ∧
       w_trace w2 = w_trace w0 ++ newd ∧
       validated newd = if v then [save_path] else []) ∧
  (∀ id rest c f w0,
     c < 1 →
     resolved (net_oa aspirin_env (oa_url aspirin_env id) (w_clock w0)) = None ∨
     resolved (net_oa aspirin_env (oa_url aspirin_env id) (w_clock w0))
     = Some "" →
     driver_loop aspirin_env "aspirin" "out" 1 (id :: rest) (c, f) w0
     = driver_loop aspirin_env "aspirin" "out" 1 rest (c, f)
         (after_request (EvResolve (oa_url aspirin_env id)) w0)) ∧
  (∀ id rest c f w0 w2 ch url,
     c < 1 →
     resolved (net_oa aspirin_env (oa_url aspirin_env id) (w_clock w0))
     = Some (String ch url) →
     download_pdf aspirin_env (String ch url)
       (save_path_of aspirin_env "aspirin" "out" id) 3
       (after_request (EvResolve (oa_url aspirin_env id)) w0) = (Val true, w2) →
     driver_loop aspirin_env "aspirin" "out" 1 (id :: rest) (c, f) w0
     = driver_loop aspirin_env "aspirin" "out" 1 rest
         (c + 1, f ++ [save_path_of aspirin_env "aspirin" "out" id])
         (World (w_fs w2) (w_clock w2)
            (w_trace w2
             ++ [EvAppend (save_path_of aspirin_env "aspirin" "out" id);
                 EvSuccess (save_path_of aspirin_env "aspirin" "out" id)]))) ∧
  (∀ id rest c f w0 w2 ch url,
     c < 1 →
     resolved (net_oa aspirin_env (oa_url aspirin_env id) (w_clock w0))
     = Some (String ch url) →
     download_pdf aspirin_env (String ch url)
       (save_path_of aspirin_env "aspirin" "out" id) 3
       (after_request (EvResolve (oa_url aspirin_env id)) w0) = (Val false, w2) →
     driver_loop aspirin_env "aspirin" "out" 1 (id :: rest) (c, f) w0
     = driver_loop aspirin_env "aspirin" "out" 1 rest (c, f)
         (World (w_fs w2) (w_clock w2)
            (w_trace w2 ++ [EvWarning (fmt aspirin_env id)]))) ∧
  (∀ ids c f w0,
     1 ≤ c →
     driver_loop aspirin_env "aspirin" "out" 1 ids (c, f) w0
     = (Val (c, f), w0)).
Proof.
  refine (driver_loop_correct aspirin_env "aspirin" "out" 1 aspirin_ids
            empty_world _).
  lia.
Defined.

(** The scenario run: the counter is one, the file acquired is that of the
    fourth ID, the only download that returned [True], and the IDs resolved
    are the first four. *)
Example driver_loop_aspirin :
  let r := driver_loop aspirin_env "aspirin" "out" 1 aspirin_ids (0, [])
             empty_world in
  r.1 = Val (1, ["out/aspirin_repurposing_PMC4.pdf"]) ∧
  validated (w_trace r.2) = ["out/aspirin_repurposing_PMC4.pdf"] ∧
  appended (w_trace r.2) = ["out/aspirin_repurposing_PMC4.pdf"] ∧
  resolved_urls (w_trace r.2) = map (oa_url aspirin_env) (take 4 aspirin_ids).
Proof. vm_compute. repeat split; done. Qed.

(** The scenario of the specification, run: one file is acquired, the first
    three IDs each end in a warning, and the fifth ID is never resolved. *)
Example aspirin_scenario :
  let r := run aspirin_env "pmc_downloads/run1" "aspirin" 10 1 empty_world in
  r.1 = Val (1, ["pmc_downloads/run1/aspirin_repurposing/aspirin_repurposing_PMC4.pdf"]) ∧
  List.filter (λ e, match e with
                    | EvSuccess _ | EvWarning _ | EvError => true
                    | _ => false
                    end) (w_trace r.2)
  = [EvWarning "1"; EvWarning "2"; EvWarning "3";
     EvSuccess "pmc_downloads/run1/aspirin_repurposing/aspirin_repurposing_PMC4.pdf";
     EvSuccess "pmc_downloads/run1/aspirin_repurposing"] ∧
  resolved_urls (w_trace r.2)
  = map (oa_url aspirin_env) (take 4 aspirin_ids) ∧
  fetches (w_trace r.2) = 10%nat.
Proof. vm_compute. repeat split; done. Qed.

(** * Further properties of the pipeline *)

(** ** Stream downloader *)

Lemma concat_filter_nonempty (chunks : list bytes) :
  concat (List.filter (λ chunk, negb (bool_decide (chunk = []))) chunks)
  = concat chunks.
Proof.
  induction chunks as [|chunk chunks IH]; [done|]. cbn [List.filter].
  case_bool_decide as Hchunk; cbn [negb concat].
  - by rewrite Hchunk.
  - by rewrite IH.
Qed.

Lemma filter_all {A} (l : list A) : List.filter (λ _, true) l = l.
Proof. induction l as [|x l IH]; [done|]. cbn. by rewrite IH. Qed.

Lemma download_stream_run (E : environment) (url dest : string) (w : world) :
  download_stream E url dest w =
    match fetch_of E url (w_clock w) with
    | NotOpened e => (Exc e, after_request (EvFetch url dest) w)
    | Written payload broken =>
        (if broken then Exc OSError else Val (),
         World (open_wb (w_fs w) dest payload) (S (w_clock w))
               (w_trace w ++ [EvFetch url dest]))
    end.
Proof.
  unfold download_stream, fetch_of, stream_to, after_request. mrun.
  destruct (str_startswith url "ftp://").
  - destruct (net_ftp E url (w_clock w)) as [body|]; [|done].
    rewrite filter_all. by destruct (t_broken body).
  - destruct (net_http E url (w_clock w)) as [r|]; [|done].
    destruct (_ && _); [done|].
    rewrite concat_filter_nonempty. by destruct (t_broken (r_body r)).
Qed.

Lemma open_wb_lookup_ne (fs : gmap string file) (p q : string) (data : bytes) :
  p ≠ q → open_wb fs q data !! p = fs !! p.
Proof.
  intros Hne. unfold open_wb.
  destruct (fs !! q); by rewrite lookup_insert_ne.
Qed.

Lemma open_wb_lookup (fs : gmap string file) (p : string) (data : bytes) :
  open_wb fs p data !! p
  = Some (File data (match fs !! p with
                     | Some f => f_readable f
                     | None => true
                     end)).
Proof.
  unfold open_wb. destruct (fs !! p); by rewrite lookup_insert_eq.
Qed.

(** X1. A call of [download_stream] makes exactly one request, logs exactly
    one fetch, and leaves every file other than its destination as it was,
    whether it returns or raises. *)
Theorem download_stream_touches_only_destination
    (E : environment) (url dest : string) (w : world) :
  w_clock (download_stream E url dest w).2 = S (w_clock w) ∧
  w_trace (download_stream E url dest w).2 = w_trace w ++ [EvFetch url dest] ∧
  ∀ p, p ≠ dest → w_fs (download_stream E url dest w).2 !! p = w_fs w !! p.
Proof.
  rewrite download_stream_run.
  destruct (fetch_of E url (w_clock w)) as [e|payload broken]; cbn.
  - done.
  - split; [done|]. split; [done|].
    intros p Hp. by apply open_wb_lookup_ne.
Qed.

(** X2. When the request itself fails, or an HTTP reply has a status from
    400 to 599, [download_stream] raises before it opens the destination: no
    file changes, and a file already at the destination is kept. *)
Theorem download_stream_raises_before_open
    (E : environment) (url dest : string) (w : world) :
  (str_startswith url "ftp://" = false →
   net_http E url (w_clock w) = None ∨
   (∃ r, net_http E url (w_clock w) = Some r ∧ 400 ≤ r_status r < 600) →
   download_stream E url dest w
   = (Exc RequestException, after_request (EvFetch url dest) w)) ∧
  (str_startswith url "ftp://" = true →
   net_ftp E url (w_clock w) = None →
   download_stream E url dest w
   = (Exc URLError, after_request (EvFetch url dest) w)).
Proof.
  rewrite download_stream_run. unfold fetch_of. split.
  - intros -> [-> | (r & -> & Hstatus)]; [done|].
    destruct (Z.leb_spec 400 (r_status r)); [|lia].
    by destruct (Z.ltb_spec (r_status r) 600); [|lia].
  - by intros -> ->.
Qed.

(** X3. When [download_stream] returns, the destination holds every byte
    that arrived: over HTTP the reply had a status outside 400-599 and the
    destination holds the concatenation of all its chunks (the empty ones
    that the loop skips add nothing), over FTP it holds the copied stream;
    in both cases the stream did not break, and a file that was replaced
    keeps its mode. *)
Theorem download_stream_writes_payload
    (E : environment) (url dest : string) (w w1 : world) :
  download_stream E url dest w = (Val (), w1) →
  (str_startswith url "ftp://" = false →
   ∃ r, net_http E url (w_clock w) = Some r ∧
        ¬ (400 ≤ r_status r < 600) ∧
        t_broken (r_body r) = false ∧
        w_fs w1 !! dest
        = Some (File (concat (t_chunks (r_body r))) (mode_at (w_fs w) dest))) ∧
  (str_startswith url "ftp://" = true →
   ∃ body, net_ftp E url (w_clock w) = Some body ∧
           t_broken body = false ∧
           w_fs w1 !! dest
           = Some (File (concat (t_chunks body)) (mode_at (w_fs w) dest))).
Proof.
  rewrite download_stream_run. unfold fetch_of, mode_at.
  intros Hrun. split; intros Hftp; rewrite Hftp in Hrun.
  - destruct (net_http E url (w_clock w)) as [r|]; [|discriminate].
    exists r. split; [done|].
    destruct (Z.leb_spec 400 (r_status r)) as [Hlo|Hlo];
      destruct (Z.ltb_spec (r_status r) 600) as [Hhi|Hhi];
      cbn [andb] in Hrun; try discriminate;
      (split; [lia|]);
      (destruct (t_broken (r_body r)); [discriminate|]);
      injection Hrun as <-; cbn [w_fs]; by rewrite open_wb_lookup.
  - destruct (net_ftp E url (w_clock w)) as [body|]; [|discriminate].
    exists body. split; [done|].
    destruct (t_broken body); [discriminate|].
    injection Hrun as <-. cbn [w_fs]. by rewrite open_wb_lookup.
Qed.

(** X3 on a reply of three chunks, the second one empty. *)
Lemma download_stream_writes_payload_witness :
  (str_startswith "http://host/a.pdf" "ftp://" = false →
   ∃ r, net_http gzipped_pdf_env "http://host/a.pdf" (w_clock empty_world)
        = Some r ∧
        ¬ (400 ≤ r_status r < 600) ∧
        t_broken (r_body r) = false ∧
        w_fs (World {[ "a.pdf.tmp" := File [x1f; x8b; x08; x00] true ]} 1
                    [EvFetch "http://host/a.pdf" "a.pdf.tmp"]) !! "a.pdf.tmp"
        = Some (File (concat (t_chunks (r_body r)))
                     (mode_at (w_fs empty_world) "a.pdf.tmp"))) ∧
  (str_startswith "http://host/a.pdf" "ftp://" = true →
   ∃ body, net_ftp gzipped_pdf_env "http://host/a.pdf" (w_clock empty_world)
           = Some body ∧
           t_broken body = false ∧
           w_fs (World {[ "a.pdf.tmp" := File [x1f; x8b; x08; x00] true ]} 1
                       [EvFetch "http://host/a.pdf" "a.pdf.tmp"]) !! "a.pdf.tmp"
           = Some (File (concat (t_chunks body))
                        (mode_at (w_fs empty_world) "a.pdf.tmp"))).
Proof.
  refine (download_stream_writes_payload gzipped_pdf_env "http://host/a.pdf"
            "a.pdf.tmp" empty_world
            (World {[ "a.pdf.tmp" := File [x1f; x8b; x08; x00] true ]} 1
                   [EvFetch "http://host/a.pdf" "a.pdf.tmp"]) _).
  vm_compute. reflexivity.
Defined.

(** A 404 keeps a file that was at the destination; a stream that breaks
    leaves there what arrived before it broke. *)
Example download_stream_examples :
  download_stream aspirin_env "http://host/1.pdf" "a.pdf" earlier_pdf_world
  = (Exc RequestException,
     World {[ "a.pdf" := File valid_pdf_bytes true ]} 1
           [EvFetch "http://host/1.pdf" "a.pdf"]) ∧
  download_stream broken_stream_env "http://host/1.pdf" "a.pdf" empty_world
  = (Exc OSError,
     World {[ "a.pdf" := File (b "%PDF-1.4 first chunk") true ]} 1
           [EvFetch "http://host/1.pdf" "a.pdf"]) ∧
  (download_pdf broken_stream_env "http://host/1.pdf" "a.pdf" 2 empty_world).1
  = Val false ∧
  w_fs (download_pdf broken_stream_env "http://host/1.pdf" "a.pdf" 2
          empty_world).2 = ∅.
Proof. vm_compute. repeat split; reflexivity. Qed.

(** ** Download orchestrator: what every call does *)

(** The files [extract_pdf_from_tar_gz] can touch are the output path and a
    path ending in [.pdf]. *)
Lemma extract_pdf_from_tar_gz_frame_fs
    (E : environment) (tar_path output_path : string) (w : world) (p : string) :
  p ≠ output_path → str_endswith p ".pdf" = false →
  w_fs (extract_pdf_from_tar_gz E tar_path output_path w).2 !! p = w_fs w !! p.
Proof.
  intros Hout Hpdf. rewrite extract_pdf_from_tar_gz_run.
  destruct (open_rb (w_fs w) tar_path) as [data|]; [|done].
  destruct (tarfile_open E data) as [members|]; [|done].
  destruct (first_pdf_member members) as [[name content]|] eqn:Hfind; [|done].
  apply first_pdf_member_name in Hfind.
  assert (p ≠ name) by congruence. cbn.
  by rewrite lookup_insert_ne, lookup_delete_ne, lookup_insert_ne.
Qed.

Lemma final_write_lookup_ne
    (fs : gmap string file) (save_path p : string) (data : bytes) :
  p ≠ save_path → p ≠ temp_of save_path →
  delete (temp_of save_path) (open_wb fs save_path data) !! p = fs !! p.
Proof. intros. by rewrite lookup_delete_ne, open_wb_lookup_ne. Qed.

Ltac frame_done :=
  rewrite ?bind_run, ?write_final_run, ?remove_if_exists_run;
  unfold after_request;
  cbn [fst snd w_fs w_clock w_trace ret];
  rewrite ?final_write_lookup_ne, ?lookup_delete_ne by done;
  first [done | congruence].

(** One pass of the loop leaves alone every file other than [save_path], the
    temp file and, for a [.tar.gz] URL, the paths ending in [.pdf]. *)
Lemma attempt_frame
    (E : environment) (url save_path : string) (w : world) (p : string) :
  p ≠ save_path → p ≠ temp_of save_path →
  str_endswith url ".tar.gz" = false ∨ str_endswith p ".pdf" = false →
  w_fs (attempt E url save_path w).2 !! p = w_fs w !! p.
Proof.
  intros Hsave Htmp Htar.
  unfold attempt, try_except, attempt_try.
  rewrite bind_run, download_stream_run.
  destruct (fetch_of E url (w_clock w)) as [e|payload broken];
    [frame_done|].
  set (w1 := World (open_wb (w_fs w) (temp_of save_path) payload) _ _).
  assert (w_fs w1 !! p = w_fs w !! p) as Hw1.
  { subst w1. cbn. by apply open_wb_lookup_ne. }
  destruct broken; [frame_done|].
  rewrite bind_run. unfold read_file, lift_fs at 1.
  destruct (open_rb (w_fs w1) (temp_of save_path)) as [raw|e]; [|frame_done].
  destruct (str_endswith url ".tar.gz") eqn:Hurl; cbn [orb].
  - destruct Htar as [?|Hpdf]; [done|].
    pose proof (extract_pdf_from_tar_gz_frame_fs E (temp_of save_path)
                  save_path w1 p Hsave Hpdf) as Hext.
    rewrite !bind_run.
    destruct (extract_pdf_from_tar_gz_frame E (temp_of save_path) save_path w1)
      as (v & fs2 & Hrun).
    rewrite Hrun in Hext |- *. cbn [snd w_fs] in Hext.
    cbn [ret]. destruct (truthy v).
    + rewrite bind_run, remove_run. cbn [w_fs].
      destruct (fs2 !! temp_of save_path); [|frame_done].
      rewrite bind_run, validate_run. cbn [w_fs w_clock w_trace].
      destruct (is_valid_pdf (delete _ fs2) save_path); frame_done.
    + destruct (has_gzip_magic raw); [|frame_done].
      destruct (safe_gunzip E raw) as [[|c d]|]; frame_done.
  - destruct (has_gzip_magic raw); [|frame_done].
    rewrite bind_run. cbn [ret].
    destruct (safe_gunzip E raw) as [[|c d]|]; frame_done.
Qed.

Lemma fetches_app (t1 t2 : list event) :
  fetches (t1 ++ t2) = (fetches t1 + fetches t2)%nat.
Proof. unfold fetches. by rewrite List.filter_app, length_app. Qed.

Lemma fetches_validations (save_path : string) (t : list event) :
  Forall (λ e, ∃ ok, e = EvValidate save_path ok) t → fetches t = O.
Proof.
  induction 1 as [|e t [ok ->] _ IH]; [done|].
  unfold fetches in *. cbn. exact IH.
Qed.

Lemma attempts_general (E : environment) (url save_path : string) (n : nat) :
  ∀ w, ∃ v fs' k new,
    attempts E url save_path n w
    = (Val v, World fs' (w_clock w + k) (w_trace w ++ new)) ∧
    (k ≤ n)%nat ∧ fetches new = k ∧
    (n ≠ O → fs' !! temp_of save_path = None) ∧
    (v = true → k ≠ O) ∧
    (n = O → v = false ∧ new = [] ∧ fs' = w_fs w).
Proof.
  induction n as [|n IH]; intros w; cbn [attempts].
  - exists false, (w_fs w), O, []. rewrite Nat.add_0_r, app_nil_r.
    destruct w. by repeat split.
  - rewrite bind_run.
    destruct (attempt_spec E url save_path w)
      as (r & fs1 & new1 & -> & Htmp1 & Hnew1 & _).
    pose proof (fetches_validations _ _ Hnew1) as Hf1.
    destruct r as [v|].
    + exists v, fs1, 1%nat, (EvFetch url (temp_of save_path) :: new1).
      rewrite Nat.add_1_r. split; [done|]. split; [lia|].
      split; [|by repeat split].
      change (EvFetch url (temp_of save_path) :: new1)
        with ([EvFetch url (temp_of save_path)] ++ new1).
      by rewrite fetches_app, Hf1.
    + rewrite bind_run. unfold sleep. rewrite log_run.
      cbn [w_fs w_clock w_trace].
      match goal with |- context [attempts _ _ _ _ ?w1] =>
        destruct (IH w1) as (v & fs' & k & new & -> & Hk & Hf & Htmp & Hv & Hz)
      end.
      cbn [w_fs w_clock w_trace] in *.
      exists v, fs', (S k),
        (EvFetch url (temp_of save_path) :: new1 ++ EvSleep 1 :: new).
      split.
      { f_equal. f_equal; [lia|]. by rewrite <- !app_assoc. }
      split; [lia|]. split.
      { change (EvFetch url (temp_of save_path) :: new1 ++ EvSleep 1 :: new)
          with ([EvFetch url (temp_of save_path)]
                ++ new1 ++ [EvSleep 1] ++ new).
        rewrite !fetches_app, Hf1, Hf. done. }
      split; [|by repeat split].
      intros _. destruct n as [|n]; [|by apply Htmp].
      by destruct Hz as (_ & _ & ->).
Qed.

(** X4. [download_pdf] never raises, whatever the network and the codecs
    do.  It makes at most [retries] requests (none when the budget is zero
    or negative, in which case it returns false and changes nothing), it
    returns true only after at least one request, and as soon as one attempt
    was made no temp file is left, on success as on failure. *)
Theorem download_pdf_total
    (E : environment) (url save_path : string) (retries : Z) (w : world) :
  ∃ v fs' k new,
    download_pdf E url save_path retries w
    = (Val v, World fs' (w_clock w + k) (w_trace w ++ new)) ∧
    (k ≤ Z.to_nat retries)%nat ∧ fetches new = k ∧
    (0 < retries → fs' !! temp_of save_path = None) ∧
    (v = true → k ≠ O) ∧
    (retries ≤ 0 → v = false ∧ new = [] ∧ fs' = w_fs w).
Proof.
  unfold download_pdf.
  destruct (attempts_general E url save_path (Z.to_nat retries) w)
    as (v & fs' & k & new & Hrun & Hk & Hf & Htmp & Hv & Hz).
  exists v, fs', k, new. split; [done|]. split; [done|]. split; [done|].
  split; [intros; apply Htmp; lia|]. split; [done|].
  intros. apply Hz. lia.
Qed.

Lemma attempts_frame
    (E : environment) (url save_path : string) (p : string) (n : nat) :
  p ≠ save_path → p ≠ temp_of save_path →
  str_endswith url ".tar.gz" = false ∨ str_endswith p ".pdf" = false →
  ∀ w, w_fs (attempts E url save_path n w).2 !! p = w_fs w !! p.
Proof.
  intros Hsave Htmp Htar. induction n as [|n IH]; intros w; [done|].
  cbn [attempts]. rewrite bind_run.
  pose proof (attempt_frame E url save_path w p Hsave Htmp Htar) as Hone.
  destruct (attempt_spec E url save_path w)
    as (r & fs1 & new1 & Hrun & _).
  rewrite Hrun in Hone |- *. cbn [snd w_fs] in Hone.
  destruct r as [v|]; [done|].
  rewrite bind_run. unfold sleep. rewrite log_run, IH. done.
Qed.

(** X5. [download_pdf] leaves alone every file other than [save_path] and
    the temp file next to it; for a URL ending in [.tar.gz], where a member
    is extracted under its own name, this holds for every path that does not
    end in [.pdf]. *)
Theorem download_pdf_frame
    (E : environment) (url save_path : string) (retries : Z) (w : world)
    (p : string) :
  p ≠ save_path → p ≠ temp_of save_path →
  str_endswith url ".tar.gz" = false ∨ str_endswith p ".pdf" = false →
  w_fs (download_pdf E url save_path retries w).2 !! p = w_fs w !! p.
Proof. intros. by apply attempts_frame. Qed.

(** X5 on a download that succeeds, with an unrelated file on disk. *)
Lemma download_pdf_frame_witness :
  w_fs (download_pdf aspirin_env "http://host/4.pdf" "a.pdf" 3 notes_world).2
    !! "notes.txt"
  = w_fs notes_world !! "notes.txt".
Proof.
  refine (download_pdf_frame aspirin_env "http://host/4.pdf" "a.pdf" 3
            notes_world "notes.txt" _ _ _).
  - discriminate.
  - discriminate.
  - left. reflexivity.
Defined.

(** ** Download orchestrator: the ways an attempt ends *)

Lemma pdf_shaped_no_gzip_magic (raw : bytes) :
  pdf_shaped raw = true → has_gzip_magic raw = false.
Proof.
  unfold pdf_shaped, has_gzip_magic.
  rewrite !andb_true_iff, !bool_decide_eq_true. intros [[_ Hhead] _].
  apply bool_decide_eq_false. intros Hmagic.
  apply (f_equal (take 2)) in Hhead.
  rewrite take_take in Hhead. cbn [Nat.min] in Hhead.
  rewrite Hmagic in Hhead. discriminate.
Qed.

Lemma pdf_shaped_nonempty (raw : bytes) : pdf_shaped raw = true → raw ≠ [].
Proof.
  unfold pdf_shaped. rewrite !andb_true_iff, !bool_decide_eq_true.
  intros [[Hlen _] _] ->. cbn in Hlen. lia.
Qed.

(** The tar branch of line 104 when the payload is not taken. *)
Lemma extraction_declined
    (E : environment) (url save_path : string) (w1 : world) (raw : bytes) :
  open_rb (w_fs w1) (temp_of save_path) = Val raw →
  tar_declines E url raw →
  (if str_endswith url ".tar.gz"
   then do r <- extract_pdf_from_tar_gz E (temp_of save_path) save_path;
        ret (truthy r)
   else ret false) w1 = (Val false, w1).
Proof.
  intros Hread Htar. destruct (str_endswith url ".tar.gz") eqn:Hurl; [|done].
  rewrite bind_run, extract_pdf_from_tar_gz_run, Hread.
  destruct Htar as [?|[->|(members & -> & ->)]]; [congruence|done..].
Qed.

Lemma is_valid_pdf_written
    (fs : gmap string file) (save_path temp_file : string) (data : bytes) :
  temp_file ≠ save_path →
  is_valid_pdf (delete temp_file (open_wb fs save_path data)) save_path
  = mode_at fs save_path && pdf_shaped data.
Proof.
  intros Hne.
  by rewrite is_valid_pdf_file, lookup_delete_ne, open_wb_lookup.
Qed.

(** A payload that is no container (not taken by tar extraction, no gzip
    magic) is written to [save_path] as it is and validated there. *)
Lemma attempt_plain
    (E : environment) (url save_path : string) (w w1 : world) (raw : bytes) :
  download_stream E url (temp_of save_path) w = (Val (), w1) →
  open_rb (w_fs w1) (temp_of save_path) = Val raw →
  tar_declines E url raw →
  has_gzip_magic raw = false →
  let ok := mode_at (w_fs w1) save_path && pdf_shaped raw in
  ∃ fs',
    attempt E url save_path w
    = (Val (if ok then Return true else Fallthrough),
       World fs' (w_clock w1) (w_trace w1 ++ [EvValidate save_path ok])) ∧
    fs' !! save_path = Some (File raw (mode_at (w_fs w1) save_path)) ∧
    fs' !! temp_of save_path = None.
Proof.
  intros Hdl Hread Htar Hmagic ok.
  unfold attempt, try_except, attempt_try.
  rewrite bind_run, Hdl, bind_run. unfold read_file, lift_fs at 1.
  rewrite Hread, Hmagic, orb_false_r.
  assert (write_final save_path (temp_of save_path) raw w1
          = (Val (if ok then Return true else Fallthrough),
             World (delete (temp_of save_path) (open_wb (w_fs w1) save_path raw))
                   (w_clock w1) (w_trace w1 ++ [EvValidate save_path ok])))
    as Hwrite.
  { rewrite write_final_run.
    by rewrite is_valid_pdf_written by apply tmp_not_save_path. }
  exists (delete (temp_of save_path) (open_wb (w_fs w1) save_path raw)).
  split; [|split].
  - destruct (str_endswith url ".tar.gz") eqn:Hurl; [|by rewrite Hwrite].
    rewrite bind_run.
    pose proof (extraction_declined E url save_path w1 raw Hread Htar) as Hext.
    rewrite Hurl in Hext. rewrite Hext. by rewrite Hwrite.
  - rewrite lookup_delete_ne by (apply tmp_not_save_path).
    apply open_wb_lookup.
  - apply lookup_delete_eq.
Qed.

(** X6. When the first transfer delivers a payload that has the shape of a
    PDF and is not taken by tar extraction, [download_pdf] returns true after
    that one request, without waiting: the payload never counts as gzip, it
    is written to [save_path] unchanged, validated, and the temp file is
    gone. *)
Theorem download_pdf_valid_payload
    (E : environment) (url save_path : string) (retries : Z)
    (w w1 : world) (raw : bytes) :
  0 < retries →
  download_stream E url (temp_of save_path) w = (Val (), w1) →
  open_rb (w_fs w1) (temp_of save_path) = Val raw →
  tar_declines E url raw →
  pdf_shaped raw = true →
  mode_at (w_fs w1) save_path = true →
  has_gzip_magic raw = false ∧
  ∃ fs',
    download_pdf E url save_path retries w
    = (Val true,
       World fs' (w_clock w1) (w_trace w1 ++ [EvValidate save_path true])) ∧
    fs' !! save_path = Some (File raw true) ∧
    fs' !! temp_of save_path = None.
Proof.
  intros Hpos Hdl Hread Htar Hshape Hmode.
  pose proof (pdf_shaped_no_gzip_magic raw Hshape) as Hmagic.
  split; [done|].
  destruct (attempt_plain E url save_path w w1 raw Hdl Hread Htar Hmagic)
    as (fs' & Hrun & Hsave & Htmp).
  rewrite Hmode, Hshape in Hrun. rewrite Hmode in Hsave. cbn [andb] in Hrun.
  exists fs'. split; [|done].
  unfold download_pdf.
  destruct (Z.to_nat retries) as [|n] eqn:Hn; [lia|].
  cbn [attempts]. by rewrite bind_run, Hrun.
Qed.

(** X6 on the fourth record of the scenario, whose PDF is genuine. *)
Lemma download_pdf_valid_payload_witness :
  has_gzip_magic valid_pdf_bytes = false ∧
  ∃ fs',
    download_pdf aspirin_env "http://host/4.pdf" "a.pdf" 3 empty_world
    = (Val true,
       World fs' 1 ([EvFetch "http://host/4.pdf" "a.pdf.tmp"]
                    ++ [EvValidate "a.pdf" true])) ∧
    fs' !! "a.pdf" = Some (File valid_pdf_bytes true) ∧
    fs' !! temp_of "a.pdf" = None.
Proof.
  refine (download_pdf_valid_payload aspirin_env "http://host/4.pdf" "a.pdf" 3
            empty_world
            (World {[ "a.pdf.tmp" := File valid_pdf_bytes true ]} 1
                   [EvFetch "http://host/4.pdf" "a.pdf.tmp"])
            valid_pdf_bytes _ _ _ _ _ _).
  - lia.
  - vm_compute. reflexivity.
  - vm_compute. reflexivity.
  - left. reflexivity.
  - vm_compute. reflexivity.
  - reflexivity.
Defined.

(** X7. A payload that is no container and has not the shape of a PDF is
    still written over [save_path], replacing whatever file was there, and
    stays there: the attempt removes the temp file, logs the failed
    validation and falls through to the wait before the next attempt. *)
Theorem attempt_rejected_payload
    (E : environment) (url save_path : string) (w w1 : world) (raw : bytes) :
  download_stream E url (temp_of save_path) w = (Val (), w1) →
  open_rb (w_fs w1) (temp_of save_path) = Val raw →
  tar_declines E url raw →
  has_gzip_magic raw = false →
  pdf_shaped raw = false →
  ∃ fs',
    attempt E url save_path w
    = (Val Fallthrough,
       World fs' (w_clock w1) (w_trace w1 ++ [EvValidate save_path false])) ∧
    fs' !! save_path = Some (File raw (mode_at (w_fs w1) save_path)) ∧
    fs' !! temp_of save_path = None ∧
    is_valid_pdf fs' save_path = false.
Proof.
  intros Hdl Hread Htar Hmagic Hshape.
  destruct (attempt_plain E url save_path w w1 raw Hdl Hread Htar Hmagic)
    as (fs' & Hrun & Hsave & Htmp).
  rewrite Hshape, andb_false_r in Hrun.
  exists fs'. split; [done|]. split; [done|]. split; [done|].
  rewrite is_valid_pdf_file, Hsave. cbn [f_data f_readable].
  by rewrite Hshape, andb_false_r.
Qed.

(** X7 on the third record of the scenario, an HTML page, downloaded over a
    genuine PDF that an earlier run left at the save path. *)
Lemma attempt_rejected_payload_witness :
  ∃ fs',
    attempt aspirin_env "http://host/3.pdf" "a.pdf" earlier_pdf_world
    = (Val Fallthrough,
       World fs' 1 ([EvFetch "http://host/3.pdf" "a.pdf.tmp"]
                    ++ [EvValidate "a.pdf" false])) ∧
    fs' !! "a.pdf"
    = Some (File (b "<html>not a pdf</html>")
                 (mode_at (<["a.pdf.tmp" := File (b "<html>not a pdf</html>") true]>
                             (w_fs earlier_pdf_world)) "a.pdf")) ∧
    fs' !! temp_of "a.pdf" = None ∧
    is_valid_pdf fs' "a.pdf" = false.
Proof.
  refine (attempt_rejected_payload aspirin_env "http://host/3.pdf" "a.pdf"
            earlier_pdf_world
            (World (<["a.pdf.tmp" := File (b "<html>not a pdf</html>") true]>
                      (w_fs earlier_pdf_world)) 1
                   [EvFetch "http://host/3.pdf" "a.pdf.tmp"])
            (b "<html>not a pdf</html>") _ _ _ _ _).
  - vm_compute. reflexivity.
  - vm_compute. reflexivity.
  - left. reflexivity.
  - reflexivity.
  - vm_compute. reflexivity.
Defined.

(** X8. A payload with the gzip magic that is not taken by tar extraction
    and decompresses to at least one byte is replaced by its decompressed
    bytes: they are what is written to [save_path] and validated.  The
    attempt returns true when they have the shape of a PDF; when they have
    not, it falls through to the wait and the next attempt, unlike a payload
    that fails to decompress. *)
Theorem attempt_gunzipped
    (E : environment) (url save_path : string) (w w1 : world)
    (raw : bytes) (c : byte) (d : bytes) :
  download_stream E url (temp_of save_path) w = (Val (), w1) →
  open_rb (w_fs w1) (temp_of save_path) = Val raw →
  tar_declines E url raw →
  has_gzip_magic raw = true →
  safe_gunzip E raw = Some (c :: d) →
  let ok := mode_at (w_fs w1) save_path && pdf_shaped (c :: d) in
  ∃ fs',
    attempt E url save_path w
    = (Val (if ok then Return true else Fallthrough),
       World fs' (w_clock w1) (w_trace w1 ++ [EvValidate save_path ok])) ∧
    fs' !! save_path = Some (File (c :: d) (mode_at (w_fs w1) save_path)) ∧
    fs' !! temp_of save_path = None.
Proof.
  intros Hdl Hread Htar Hmagic Hgunzip ok.
  unfold attempt, try_except, attempt_try.
  rewrite bind_run, Hdl, bind_run. unfold read_file, lift_fs at 1.
  rewrite Hread, Hmagic, orb_true_r, bind_run.
  rewrite (extraction_declined E url save_path w1 raw Hread Htar).
  rewrite Hgunzip, write_final_run.
  rewrite is_valid_pdf_written by apply tmp_not_save_path.
  subst ok. eexists. split; [reflexivity|]. cbn [w_fs]. split.
  - rewrite lookup_delete_ne by (apply tmp_not_save_path).
    apply open_wb_lookup.
  - apply lookup_delete_eq.
Qed.

(** X8 on a payload that arrives in three chunks, one of them empty, and
    decompresses to a PDF. *)
Lemma attempt_gunzipped_witness :
  let ok := mode_at {[ "a.pdf.tmp" := File [x1f; x8b; x08; x00] true ]} "a.pdf"
            && pdf_shaped valid_pdf_bytes in
  ∃ fs',
    attempt gzipped_pdf_env "http://host/a.pdf" "a.pdf" empty_world
    = (Val (if ok then Return true else Fallthrough),
       World fs' 1 ([EvFetch "http://host/a.pdf" "a.pdf.tmp"]
                    ++ [EvValidate "a.pdf" ok])) ∧
    fs' !! "a.pdf"
    = Some (File valid_pdf_bytes
              (mode_at {[ "a.pdf.tmp" := File [x1f; x8b; x08; x00] true ]}
                       "a.pdf")) ∧
    fs' !! temp_of "a.pdf" = None.
Proof.
  refine (attempt_gunzipped gzipped_pdf_env "http://host/a.pdf" "a.pdf"
            empty_world
            (World {[ "a.pdf.tmp" := File [x1f; x8b; x08; x00] true ]} 1
                   [EvFetch "http://host/a.pdf" "a.pdf.tmp"])
            [x1f; x8b; x08; x00] "%"%byte (tail valid_pdf_bytes) _ _ _ _ _).
  - vm_compute. reflexivity.
  - vm_compute. reflexivity.
  - left. reflexivity.
  - reflexivity.
  - vm_compute. reflexivity.
Defined.

(** X9. For a URL ending in [.tar.gz] whose archive has a member with a
    name ending in [.pdf], the first such member that has the shape of a PDF
    makes [download_pdf] return true after one request: the member's bytes
    are at [save_path], the archive is not written there, and neither the
    temp file nor the extracted copy under the member's name remains. *)
Theorem download_pdf_tar_member
    (E : environment) (url save_path : string) (retries : Z)
    (w w1 : world) (raw : bytes)
    (members : list (string * bytes)) (name : string) (content : bytes) :
  0 < retries →
  str_endswith url ".tar.gz" = true →
  download_stream E url (temp_of save_path) w = (Val (), w1) →
  open_rb (w_fs w1) (temp_of save_path) = Val raw →
  tarfile_open E raw = Some members →
  first_pdf_member members = Some (name, content) →
  pdf_shaped content = true →
  ∃ fs',
    download_pdf E url save_path retries w
    = (Val true,
       World fs' (w_clock w1) (w_trace w1 ++ [EvValidate save_path true])) ∧
    fs' !! save_path = Some (File content true) ∧
    fs' !! temp_of save_path = None ∧
    (name ≠ save_path → fs' !! name = None).
Proof.
  intros Hpos Htar Hdl Hread Hopen Hfind Hshape.
  pose proof (pdf_name_not_tmp name save_path
                (first_pdf_member_name _ _ _ Hfind)) as Hname.
  pose proof (tmp_not_save_path save_path) as Hsave.
  pose proof (open_rb_Val _ _ _ Hread) as Htmp.
  set (fs' := delete (temp_of save_path)
                (<[save_path := File content true]>
                   (delete name (<[name := File content true]> (w_fs w1))))).
  assert (fs' !! save_path = Some (File content true)) as Hsaved.
  { subst fs'. by rewrite lookup_delete_ne, lookup_insert_eq. }
  exists fs'. split; [|split; [done|split]].
  - unfold download_pdf.
    destruct (Z.to_nat retries) as [|n] eqn:Hn; [lia|].
    cbn [attempts]. rewrite bind_run.
    unfold attempt, try_except, attempt_try.
    rewrite bind_run, Hdl, bind_run. unfold read_file, lift_fs at 1.
    rewrite Hread, Htar. cbn [orb].
    rewrite !bind_run, extract_pdf_from_tar_gz_run, Hread, Hopen, Hfind.
    cbn [ret truthy]. rewrite bind_run, remove_run. cbn [w_fs w_clock w_trace].
    rewrite lookup_insert_ne, lookup_delete_ne, lookup_insert_ne, Htmp by done.
    rewrite bind_run, validate_run. cbn [w_fs w_clock w_trace]. fold fs'.
    assert (is_valid_pdf fs' save_path = true) as ->.
    { by rewrite is_valid_pdf_file, Hsaved. }
    done.
  - subst fs'. apply lookup_delete_eq.
  - intros Hne. subst fs'.
    rewrite lookup_delete_ne, lookup_insert_ne, lookup_delete_eq; done.
Qed.

(** X9 on an archive whose second member is the PDF. *)
Lemma download_pdf_tar_member_witness :
  ∃ fs',
    download_pdf archived_pdf_env "ftp://host/a.tar.gz" "a.pdf" 3 empty_world
    = (Val true,
       World fs' 1 ([EvFetch "ftp://host/a.tar.gz" "a.pdf.tmp"]
                    ++ [EvValidate "a.pdf" true])) ∧
    fs' !! "a.pdf" = Some (File valid_pdf_bytes true) ∧
    fs' !! temp_of "a.pdf" = None ∧
    ("paper.pdf" ≠ "a.pdf" → fs' !! "paper.pdf" = None).
Proof.
  refine (download_pdf_tar_member archived_pdf_env "ftp://host/a.tar.gz"
            "a.pdf" 3 empty_world
            (World {[ "a.pdf.tmp" := File bundle_tgz true ]} 1
                   [EvFetch "ftp://host/a.tar.gz" "a.pdf.tmp"])
            bundle_tgz
            [("notes.txt", b "notes"); ("paper.pdf", valid_pdf_bytes)]
            "paper.pdf" valid_pdf_bytes _ _ _ _ _ _ _).
  - lia.
  - reflexivity.
  - reflexivity.
  - reflexivity.
  - reflexivity.
  - reflexivity.
  - vm_compute. reflexivity.
Defined.

(** ** PDF validation: the trailer window *)

Lemma bytes_contains_drop (needle hay : bytes) (k : nat) :
  bytes_contains needle (drop k hay) = true → bytes_contains needle hay = true.
Proof.
  rewrite !bytes_contains_spec. intros (before & after & Heq).
  exists (take k hay ++ before), after.
  by rewrite <- app_assoc, <- Heq, take_drop.
Qed.

Lemma no_marker_after_percent (pad : bytes) :
  Forall (λ x, x ≠ "%"%byte) pad →
  bytes_contains (b "%%EOF") (["%"; "E"; "O"; "F"]%byte ++ pad) = false.
Proof.
  intros Hpad. apply not_true_is_false.
  intros (before & after & Heq)%bytes_contains_spec.
  destruct before as [|? [|? [|? [|? before]]]]; cbn in Heq;
    try discriminate.
  injection Heq as _ _ _ _ ->.
  apply Forall_app in Hpad as [_ Hpad]. by inversion Hpad.
Qed.

(** X10. The trailer check looks at the last ten bytes only.  A readable
    file of at least 5000 bytes that starts with [%PDF-] and ends with
    [%%EOF] followed by at most five more bytes is valid, whatever those
    bytes are; followed by six or more bytes, none of them [%], it is
    not. *)
Theorem is_valid_pdf_trailing_bytes
    (fs : gmap string file) (path : string) (body pad : bytes) :
  let data := body ++ b "%%EOF" ++ pad in
  fs !! path = Some (File data true) →
  (5000 ≤ length data)%nat →
  take 5 data = b "%PDF-" →
  ((length pad ≤ 5)%nat → is_valid_pdf fs path = true) ∧
  ((6 ≤ length pad)%nat → Forall (λ x, x ≠ "%"%byte) pad →
   is_valid_pdf fs path = false).
Proof.
  intros data Hfile Hlen Hhead.
  rewrite is_valid_pdf_file, Hfile. cbn [f_readable f_data andb].
  unfold pdf_shaped.
  rewrite (bool_decide_eq_true_2 _ Hlen), (bool_decide_eq_true_2 _ Hhead).
  cbn [andb].
  assert (length data = length body + 5 + length pad)%nat as Hdata.
  { subst data. rewrite !length_app. cbn. lia. }
  split.
  - intros Hpad. apply bytes_contains_spec.
    exists (drop (length data - 10) body), pad.
    subst data. rewrite drop_app_le; [done|].
    rewrite !length_app. cbn. lia.
  - intros Hpad Hclean.
    set (k := (length data - 10)%nat).
    assert (length body + 1 ≤ k)%nat as Hk by lia.
    clearbody k. subst data.
    change (b "%%EOF") with (["%"%byte] ++ ["%"; "E"; "O"; "F"]%byte).
    rewrite <- (app_assoc [_]), (app_assoc body).
    rewrite drop_app_ge by (rewrite length_app; cbn; lia).
    apply not_true_is_false. intros Hin%bytes_contains_drop.
    by rewrite no_marker_after_percent in Hin.
Qed.

(** X10 on a PDF that ends with [%%EOF] and a carriage return and line
    feed. *)
Lemma is_valid_pdf_trailing_bytes_witness :
  ((length [x0d; x0a] ≤ 5)%nat →
   is_valid_pdf
     {[ "a.pdf" := File ((b "%PDF-" ++ replicate 4990 x00)
                         ++ b "%%EOF" ++ [x0d; x0a]) true ]} "a.pdf" = true) ∧
  ((6 ≤ length [x0d; x0a])%nat → Forall (λ x, x ≠ "%"%byte) [x0d; x0a] →
   is_valid_pdf
     {[ "a.pdf" := File ((b "%PDF-" ++ replicate 4990 x00)
                         ++ b "%%EOF" ++ [x0d; x0a]) true ]} "a.pdf" = false).
Proof.
  refine (is_valid_pdf_trailing_bytes
            {[ "a.pdf" := File ((b "%PDF-" ++ replicate 4990 x00)
                                ++ b "%%EOF" ++ [x0d; x0a]) true ]}
            "a.pdf" (b "%PDF-" ++ replicate 4990 x00) [x0d; x0a] _ _ _).
  - apply lookup_singleton_eq.
  - rewrite !length_app, length_replicate. cbn. lia.
  - reflexivity.
Defined.

(** ** Search client and resolver: malformed replies *)

(** X11. What [search_pmc_articles] does with JSON of an unexpected kind.
    A response that is not an object, or whose [esearchresult] is present
    and not an object, raises [AttributeError] (only a missing key falls back
    to the default).  An [idlist] that is [null], a boolean or a number
    raises [TypeError] when the links are built.  An [idlist] that is a string
    is accepted: it is returned as it is, and one link is built for each of
    its characters. *)
Theorem search_pmc_articles_malformed
    (E : environment) (query : string) (max_results : Z) (w : world) :
  let reply := net_esearch E query max_results (w_clock w) in
  let result := (search_pmc_articles E query max_results w).1 in
  (∀ data, reply = Body (Some data) → (∀ fields, data ≠ JObject fields) →
           result = Exc AttributeError) ∧
  (∀ fields v, reply = Body (Some (JObject fields)) →
               dict_lookup "esearchresult" fields = Some v →
               (∀ rfields, v ≠ JObject rfields) →
               result = Exc AttributeError) ∧
  (∀ fields rfields v,
     reply = Body (Some (JObject fields)) →
     dict_lookup "esearchresult" fields = Some (JObject rfields) →
     dict_lookup "idlist" rfields = Some v →
     v = JNull ∨ (∃ x, v = JBool x) ∨ (∃ x, v = JNumber x) →
     result = Exc TypeError) ∧
  (∀ fields rfields s,
     reply = Body (Some (JObject fields)) →
     dict_lookup "esearchresult" fields = Some (JObject rfields) →
     dict_lookup "idlist" rfields = Some (JString s) →
     result = Val (JString s, map (article_link E) (chars s)) ∧
     length (chars s) = String.length s).
Proof.
  intros reply result. subst reply result.
  rewrite search_pmc_articles_run. cbn [fst].
  split; [|split; [|split]].
  - intros data -> Hdata. by destruct data; try done; destruct (Hdata fields).
  - intros fields v -> Hres Hv. simpl. rewrite Hres. simpl.
    by destruct v; try done; destruct (Hv fields0).
  - intros fields rfields v -> Hres Hid Hv. simpl. rewrite Hres. simpl.
    rewrite Hid. simpl. by destruct Hv as [->|[[x ->]|[x ->]]].
  - intros fields rfields s -> Hres Hid. simpl. rewrite Hres. simpl.
    rewrite Hid. simpl. split; [done|]. clear.
    induction s as [|c s IH]; [done|]. cbn. by rewrite IH.
Qed.

Lemma find_in_list {A} (f : A → bool) (l : list A) (x : A) :
  List.find f l = Some x → x ∈ l ∧ f x = true.
Proof.
  intros [Hin Hf]%find_some. split; [by apply list_elem_of_In|done].
Qed.

(** X12. The resolver only ever answers with the [href] of a [link]
    element that lies below the root of the reply and has [format="pdf"]: it
    invents no URL.  The root itself is never a candidate, so a reply that
    consists of one element with no children resolves to [None], even when
    that element is such a link. *)
Theorem get_pdf_link_from_pmcid_sound
    (E : environment) (pmcid : json) (w : world) :
  let reply := net_oa E (oa_url E pmcid) (w_clock w) in
  let result := (get_pdf_link_from_pmcid E pmcid w).1 in
  (∀ href, result = Val (Some href) →
     ∃ root link,
       reply = Body (Some root) ∧
       link ∈ descendants root ∧ e_tag link = "link" ∧
       e_attrib link !! "format" = Some "pdf" ∧
       e_attrib link !! "href" = Some href) ∧
  (∀ tag attrib, reply = Body (Some (Element tag attrib [])) →
                 result = Val None).
Proof.
  intros reply result. subst reply result.
  rewrite get_pdf_link_from_pmcid_run. cbn [fst]. split.
  - intros href [= Hres]. unfold resolved in Hres.
    destruct (net_oa E (oa_url E pmcid) (w_clock w)) as [|[root|]];
      try discriminate.
    destruct (first_pdf_link root) as [link|] eqn:Hlink; [|discriminate].
    apply find_in_list in Hlink as [Hin Hpdf].
    apply list_elem_of_filter in Hin as [Htag Hin].
    apply bool_decide_eq_true in Hpdf.
    by exists root, link.
  - by intros tag attrib ->.
Qed.

(** ** Pipeline driver: files and requests *)

Lemma driver_loop_more
    (E : environment) (drug folder : string) (max_pdfs : Z) (ids : list json) :
  ∀ count files w,
  ∃ count' files' w' l,
    driver_loop E drug folder max_pdfs ids (count, files) w
    = (Val (count', files'), w') ∧
    files' = files ++ l ∧
    l `sublist_of` map (save_path_of E drug folder) ids ∧
    (w_clock w ≤ w_clock w' ≤ w_clock w + 4 * length ids)%nat.
Proof.
  induction ids as [|id rest IH]; intros count files w.
  { exists count, files, w, []. rewrite app_nil_r. cbn.
    repeat split; try done; try lia. }
  cbn [driver_loop].
  destruct (Z.leb_spec max_pdfs count) as [Hstop|Hgo].
  { exists count, files, w, []. rewrite app_nil_r. cbn [ret length].
    repeat split; try done; try lia. apply sublist_nil_l. }
  rewrite bind_run, get_pdf_link_from_pmcid_run.
  set (w1 := after_request (EvResolve (oa_url E id)) w).
  assert (w_clock w1 = S (w_clock w)) as Hc1 by done.
  assert (∃ count' files' w' l,
            driver_loop E drug folder max_pdfs rest (count, files) w1
            = (Val (count', files'), w') ∧
            files' = files ++ l ∧
            l `sublist_of` map (save_path_of E drug folder) (id :: rest) ∧
            (w_clock w ≤ w_clock w' ≤ w_clock w + 4 * length (id :: rest))%nat)
    as Hskip.
  { destruct (IH count files w1) as (c' & f' & w' & l & -> & -> & Hsub & Hclock).
    exists c', (files ++ l), w', l. split; [done|]. split; [done|].
    split; [by apply sublist_cons|]. cbn [length]. lia. }
  destruct (resolved _) as [[|c url]|]; [done| |done].
  clear Hskip. rewrite bind_run. unfold download_pdf.
  set (save_path := save_path_of E drug folder id).
  destruct (attempts_general E (String c url) save_path (Z.to_nat 3) w1)
    as (v & fs2 & k & newd & -> & Hk & _).
  destruct v.
  - repeat (rewrite bind_run, log_run; cbn [w_fs w_clock w_trace]).
    match goal with |- context [driver_loop _ _ _ _ _ ?st ?w3] =>
      destruct (IH (count + 1) (files ++ [save_path]) w3)
        as (c' & f' & w' & l & -> & -> & Hsub & Hclock)
    end.
    cbn [w_clock] in Hclock.
    exists c', ((files ++ [save_path]) ++ l), w', (save_path :: l).
    split; [done|]. split; [by rewrite <- app_assoc|].
    split; [by apply sublist_skip|]. cbn [length]. lia.
  - rewrite bind_run, log_run. cbn [w_fs w_clock w_trace].
    match goal with |- context [driver_loop _ _ _ _ _ ?st ?w3] =>
      destruct (IH count files w3)
        as (c' & f' & w' & l & -> & -> & Hsub & Hclock)
    end.
    cbn [w_clock] in Hclock.
    exists c', (files ++ l), w', l.
    split; [done|]. split; [done|].
    split; [by apply sublist_cons|]. cbn [length]. lia.
Qed.

(** X13. The driver's loop makes at most four requests for each ID (one to
    resolve it and at most three to fetch its PDF), so at most four times the
    number of IDs in all, and the whole run at most one more, for the
    search. *)
Theorem driver_requests_bounded
    (E : environment) (drug : string) (max_pdfs : Z) :
  (∀ folder pmc_ids st w,
     (w_clock (driver_loop E drug folder max_pdfs pmc_ids st w).2
      ≤ w_clock w + 4 * length pmc_ids)%nat) ∧
  (∀ downloads_folder max_links w found,
     (search_pmc_articles E (drug ++ " repurposing") max_links w).1 = Val found →
     ∃ pmc_ids,
       py_iter found.1 = Val pmc_ids ∧
       (w_clock (run E downloads_folder drug max_links max_pdfs w).2
        ≤ w_clock w + 1 + 4 * length pmc_ids)%nat).
Proof.
  split.
  - intros folder pmc_ids [count files] w.
    destruct (driver_loop_more E drug folder max_pdfs pmc_ids count files w)
      as (c' & f' & w' & l & -> & _ & _ & Hclock).
    cbn [snd]. lia.
  - intros downloads_folder max_links w found Hsearch. unfold run.
    rewrite bind_run.
    destruct (search_pmc_articles E (drug ++ " repurposing") max_links w)
      as [o w1] eqn:Hrun.
    cbn [fst] in Hsearch. subst o.
    assert (w_clock w1 = S (w_clock w) ∧ ∃ ids, py_iter found.1 = Val ids)
      as [Hc1 [ids Hids]].
    { rewrite search_pmc_articles_run in Hrun.
      destruct (net_esearch _ _ _ _) as [|[data|]]; try discriminate.
      destruct (py_get data _ _) as [result|]; [|discriminate].
      destruct (py_get result _ _) as [pmc_ids|]; [|discriminate].
      destruct (py_iter pmc_ids) as [ids|] eqn:Hids; [|discriminate].
      injection Hrun as <- <-. split; [done|]. by exists ids. }
    exists ids. split; [done|].
    rewrite bind_run. unfold lift at 1. rewrite Hids, bind_run.
    match goal with |- context [driver_loop _ _ ?f _ _ _ _] =>
      destruct (driver_loop_more E drug f max_pdfs ids 0 [] w1)
        as (c' & f' & w' & l & -> & _ & _ & Hclock)
    end.
    rewrite bind_run. cbn [fst].
    destruct (c' =? 0); rewrite log_run; cbn [snd ret w_clock]; lia.
Qed.

Lemma str_length_app (s t : string) :
  String.length (s ++ t)%string = (String.length s + String.length t)%nat.
Proof.
  induction s as [|c s IH]; [done|].
  change (S (String.length (s ++ t)%string)
          = S (String.length s + String.length t)).
  by rewrite IH.
Qed.

Lemma str_app_inv_tail (s1 s2 t : string) :
  (s1 ++ t = s2 ++ t)%string → s1 = s2.
Proof.
  revert s2. induction s1 as [|c s1 IH]; intros [|c' s2] Heq; [done| | |].
  - apply (f_equal String.length) in Heq.
    change (String.length t = S (String.length (s2 ++ t)%string)) in Heq.
    rewrite str_length_app in Heq. lia.
  - apply (f_equal String.length) in Heq.
    change (S (String.length (s1 ++ t)%string) = String.length t) in Heq.
    rewrite str_length_app in Heq. lia.
  - injection Heq as -> Heq. f_equal. by apply IH.
Qed.

Lemma str_app_inv_head (s t1 t2 : string) :
  (s ++ t1 = s ++ t2)%string → t1 = t2.
Proof. induction s as [|c s IH]; [done|]. intros [= Heq]. by apply IH. Qed.

Lemma os_path_join_inj (a drug x y : string) :
  os_path_join a (drug ++ String "_" x) = os_path_join a (drug ++ String "_" y) →
  x = y.
Proof.
  unfold os_path_join, str_startswith.
  assert (∀ z, String.prefix "/" (drug ++ String "_" z)
               = String.prefix "/" (drug ++ String "_" "")) as Hprefix.
  { intros z. destruct drug as [|c drug]; [by vm_compute|].
    change (String.prefix "/" (String c (drug ++ String "_" z))
            = String.prefix "/" (String c (drug ++ String "_" ""))).
    cbn [String.prefix]. destruct (ascii_dec "/" c); [|done].
    assert (∀ s, String.prefix "" s = true) as Hempty by (by intros []).
    by rewrite !Hempty. }
  rewrite (Hprefix x), (Hprefix y).
  destruct (String.prefix "/" _).
  - intros Heq%str_app_inv_head. by injection Heq.
  - destruct (_ || _).
    + intros Heq%str_app_inv_head%str_app_inv_head. by injection Heq.
    + intros Heq%str_app_inv_head%str_app_inv_head%str_app_inv_head.
      by injection Heq.
Qed.

Lemma save_path_of_inj (E : environment) (drug folder : string) (s1 s2 : string) :
  save_path_of E drug folder (JString s1) = save_path_of E drug folder (JString s2) →
  s1 = s2.
Proof.
  unfold save_path_of. cbn [fmt].
  intros Heq%os_path_join_inj. injection Heq as Heq.
  by apply str_app_inv_tail in Heq.
Qed.

Lemma map_fmap {A B} (f : A → B) (l : list A) : map f l = f <$> l.
Proof. induction l as [|x l IH]; [done|]. cbn. by rewrite IH. Qed.

(** X14. The acquired files are save paths of the IDs, in the order of the
    IDs and at most one for each ID; so when the search returns distinct
    string IDs, no path is acquired twice. *)
Theorem driver_files_in_order
    (E : environment) (drug folder : string) (max_pdfs : Z)
    (pmc_ids : list json) (w : world) :
  ∃ count files w',
    driver_loop E drug folder max_pdfs pmc_ids (0, []) w
    = (Val (count, files), w') ∧
    files `sublist_of` map (save_path_of E drug folder) pmc_ids ∧
    (Forall (λ id, ∃ s, id = JString s) pmc_ids → NoDup pmc_ids →
     NoDup files).
Proof.
  destruct (driver_loop_more E drug folder max_pdfs pmc_ids 0 [] w)
    as (c' & f' & w' & l & Hrun & -> & Hsub & _).
  exists c', l, w'. split; [done|]. split; [done|].
  intros Hstr Hnodup. apply (sublist_NoDup _ _) with (2 := Hsub).
  rewrite map_fmap. apply NoDup_fmap_2_strong; [|done].
  intros x y Hx Hy Heq. rewrite Forall_forall in Hstr.
  destruct (Hstr x Hx) as [s1 ->], (Hstr y Hy) as [s2 ->].
  f_equal. by apply (save_path_of_inj E drug folder).
Qed.

(** ** Display of the acquired files *)

Lemma str_has_app (c : ascii) (s t : string) :
  str_has c (s ++ t)%string = str_has c s || str_has c t.
Proof.
  induction s as [|c' s IH]; [done|].
  change (Ascii.eqb c' c || str_has c (s ++ t)%string
          = Ascii.eqb c' c || str_has c s || str_has c t).
  by rewrite IH, orb_assoc.
Qed.

Lemma str_app_assoc (s t u : string) :
  ((s ++ t) ++ u = s ++ t ++ u)%string.
Proof.
  induction s as [|c s IH]; [done|].
  change (String c ((s ++ t) ++ u)%string = String c (s ++ t ++ u)%string).
  by rewrite IH.
Qed.

Lemma os_path_basename_plain (p : string) :
  str_has "/" p = false → os_path_basename p = p.
Proof.
  destruct p as [|c p]; [done|]. cbn [str_has os_path_basename].
  intros [Hc ->]%orb_false_iff. by rewrite Hc.
Qed.

Lemma os_path_basename_after_slash (a p : string) :
  str_has "/" p = false → os_path_basename (a ++ String "/" p)%string = p.
Proof.
  intros Hp. induction a as [|c a IH].
  - change (os_path_basename (String "/" p) = p).
    cbn [os_path_basename]. by rewrite Hp.
  - change (os_path_basename (String c (a ++ String "/" p)%string) = p).
    cbn [os_path_basename]. rewrite str_has_app. cbn [str_has].
    rewrite Ascii.eqb_refl, orb_true_r. exact IH.
Qed.

Lemma os_path_basename_join (a p : string) :
  str_has "/" p = false → os_path_basename (os_path_join a p) = p.
Proof.
  intros Hp. unfold os_path_join, str_startswith.
  assert (String.prefix "/" p = false) as ->.
  { destruct p as [|c p]; [done|]. cbn [str_has] in Hp.
    apply orb_false_iff in Hp as [Hc _]. cbn [String.prefix].
    destruct (ascii_dec "/" c) as [<-|]; [|done]. discriminate. }
  destruct (String.eqb_spec a "") as [->|_]; cbn [orb].
  { by apply os_path_basename_plain. }
  destruct (str_endswith a "/") eqn:Hend.
  - apply str_endswith_spec in Hend as [a' ->].
    rewrite str_app_assoc.
    by apply os_path_basename_after_slash.
  - by apply os_path_basename_after_slash.
Qed.

(** X16. The name under which an acquired file is displayed,
    [os.path.basename] of its save path, is the template name
    [<drug>_repurposing_PMC<id>.pdf], whatever the output folder, as long as
    neither the drug name nor the ID contains a [/]. *)
Theorem displayed_name_of_save_path
    (E : environment) (drug folder : string) (pmcid : json) :
  str_has "/" drug = false →
  str_has "/" (fmt E pmcid) = false →
  os_path_basename (save_path_of E drug folder pmcid)
  = (drug ++ "_repurposing_PMC" ++ fmt E pmcid ++ ".pdf")%string.
Proof.
  intros Hdrug Hid. unfold save_path_of.
  apply os_path_basename_join.
  rewrite !str_has_app, Hdrug, Hid. done.
Qed.

(** X16 on the fourth record of the scenario. *)
Lemma displayed_name_of_save_path_witness :
  os_path_basename
    (save_path_of aspirin_env "aspirin" "pmc_downloads/run1/aspirin_repurposing"
       (JString "4"))
  = ("aspirin" ++ "_repurposing_PMC" ++ fmt aspirin_env (JString "4") ++ ".pdf")%string.
Proof.
  refine (displayed_name_of_save_path aspirin_env "aspirin"
            "pmc_downloads/run1/aspirin_repurposing" (JString "4") _ _);
    reflexivity.
Defined.

Lemma str_replace_char_length (old new : ascii) (s : string) :
  String.length (str_replace_char old new s) = String.length s.
Proof. induction s as [|c s IH]; [done|]. cbn. by rewrite IH. Qed.

Lemma str_replace_char_app (old new : ascii) (s t : string) :
  str_replace_char old new (s ++ t)%string
  = (str_replace_char old new s ++ str_replace_char old new t)%string.
Proof.
  induction s as [|c s IH]; [done|].
  change (String (if Ascii.eqb c old then new else c)
                 (str_replace_char old new (s ++ t)%string)
          = String (if Ascii.eqb c old then new else c)
                   (str_replace_char old new s ++ str_replace_char old new t)%string).
  by rewrite IH.
Qed.

Lemma str_replace_char_id (old new : ascii) (s : string) :
  str_has old s = false → str_replace_char old new s = s.
Proof.
  induction s as [|c s IH]; [done|]. cbn [str_has str_replace_char].
  intros [-> Hs]%orb_false_iff. by rewrite IH.
Qed.

Lemma str_has_replaced (c old new : ascii) (s : string) :
  c ≠ new → (c = old ∨ str_has c s = false) →
  str_has c (str_replace_char old new s) = false.
Proof.
  intros Hnew Hc. induction s as [|c' s IH]; [done|].
  cbn [str_replace_char str_has].
  assert (c = old ∨ str_has c s = false) as Hs.
  { destruct Hc as [?|Hc]; [by left|]. cbn [str_has] in Hc.
    apply orb_false_iff in Hc as [_ ?]. by right. }
  rewrite (IH Hs), orb_false_r.
  destruct (Ascii.eqb_spec c' old) as [->|Hne].
  - by apply Ascii.eqb_neq.
  - apply Ascii.eqb_neq. intros ->. destruct Hc as [?|Hc]; [done|].
    cbn [str_has] in Hc. by rewrite Ascii.eqb_refl in Hc.
Qed.

Lemma save_path_of_shape (E : environment) (drug folder : string) :
  ∃ pre, ∀ s,
    save_path_of E drug folder (JString s) = (pre ++ s ++ ".pdf")%string.
Proof.
  unfold save_path_of, os_path_join, str_startswith. cbn [fmt].
  assert (∀ z, String.prefix "/" (drug ++ String "_" z)
               = String.prefix "/" (drug ++ String "_" "")) as Hprefix.
  { intros z. destruct drug as [|c drug]; [by vm_compute|].
    change (String.prefix "/" (String c (drug ++ String "_" z))
            = String.prefix "/" (String c (drug ++ String "_" ""))).
    cbn [String.prefix]. destruct (ascii_dec "/" c); [|done].
    assert (∀ s, String.prefix "" s = true) as Hempty by (by intros []).
    by rewrite !Hempty. }
  assert (∀ s, (drug ++ "_repurposing_PMC" ++ s ++ ".pdf")%string
               = ((drug ++ "_repurposing_PMC") ++ s ++ ".pdf")%string) as Hname.
  { intros s. by rewrite str_app_assoc. }
  destruct (String.prefix "/" (drug ++ String "_" "")) eqn:Hp.
  - exists (drug ++ "_repurposing_PMC")%string. intros s.
    change ("_repurposing_PMC" ++ s ++ ".pdf")%string
      with (String "_" ("repurposing_PMC" ++ s ++ ".pdf")%string).
    rewrite Hprefix. exact (Hname s).
  - destruct (String.eqb folder "" || str_endswith folder "/").
    + exists (folder ++ drug ++ "_repurposing_PMC")%string. intros s.
      change ("_repurposing_PMC" ++ s ++ ".pdf")%string
        with (String "_" ("repurposing_PMC" ++ s ++ ".pdf")%string).
      rewrite Hprefix.
      change (String "_" ("repurposing_PMC" ++ s ++ ".pdf")%string)
        with ("_repurposing_PMC" ++ s ++ ".pdf")%string.
      by rewrite Hname, !str_app_assoc.
    + exists (folder ++ "/" ++ drug ++ "_repurposing_PMC")%string. intros s.
      change ("_repurposing_PMC" ++ s ++ ".pdf")%string
        with (String "_" ("repurposing_PMC" ++ s ++ ".pdf")%string).
      rewrite Hprefix.
      change (String "_" ("repurposing_PMC" ++ s ++ ".pdf")%string)
        with ("_repurposing_PMC" ++ s ++ ".pdf")%string.
      by rewrite Hname, !str_app_assoc.
Qed.

Lemma sanitized_key_app (p q : string) :
  sanitized_key (p ++ q)%string = (sanitized_key p ++ sanitized_key q)%string.
Proof. unfold sanitized_key. by rewrite !str_replace_char_app. Qed.

Lemma sanitized_key_clean (s : string) :
  str_has "_" s = false → str_has "/" s = false → str_has "\" s = false →
  sanitized_key s = s.
Proof.
  intros H1 H2 H3. unfold sanitized_key.
  by rewrite (str_replace_char_id "_"), (str_replace_char_id "/"),
    (str_replace_char_id "\").
Qed.

(** X17. The widget key of a file has the length of its path and contains
    none of [_], [/] and [\]; sanitizing again changes nothing, so a path and
    its key share a key.  For two string IDs that contain none of the three
    characters, the save paths of one run get the same key only when the IDs
    are equal. *)
Theorem sanitized_key_properties (E : environment) (drug folder : string) :
  (∀ p, String.length (sanitized_key p) = String.length p) ∧
  (∀ p, str_has "_" (sanitized_key p) = false ∧
        str_has "/" (sanitized_key p) = false ∧
        str_has "\" (sanitized_key p) = false) ∧
  (∀ p, sanitized_key (sanitized_key p) = sanitized_key p) ∧
  (∀ s1 s2,
     str_has "_" s1 = false → str_has "/" s1 = false → str_has "\" s1 = false →
     str_has "_" s2 = false → str_has "/" s2 = false → str_has "\" s2 = false →
     sanitized_key (save_path_of E drug folder (JString s1))
     = sanitized_key (save_path_of E drug folder (JString s2)) →
     s1 = s2).
Proof.
  assert (∀ p, str_has "_" (sanitized_key p) = false ∧
               str_has "/" (sanitized_key p) = false ∧
               str_has "\" (sanitized_key p) = false) as Hfree.
  { intros p. unfold sanitized_key. repeat split.
    - apply str_has_replaced; [done|right].
      apply str_has_replaced; [done|right].
      apply str_has_replaced; [done|by left].
    - apply str_has_replaced; [done|right].
      apply str_has_replaced; [done|by left].
    - apply str_has_replaced; [done|by left]. }
  split; [|split; [done|split]].
  - intros p. unfold sanitized_key. by rewrite !str_replace_char_length.
  - intros p. destruct (Hfree p) as (H1 & H2 & H3).
    by apply sanitized_key_clean.
  - intros s1 s2 H1 H2 H3 H4 H5 H6.
    destruct (save_path_of_shape E drug folder) as [pre Hshape].
    rewrite !Hshape, !sanitized_key_app.
    rewrite (sanitized_key_clean s1), (sanitized_key_clean s2) by done.
    intros Heq%str_app_inv_head. by apply str_app_inv_tail in Heq.
Qed.

(** Two IDs that differ only in which of the replaced characters they use
    do collide. *)
Example sanitized_key_collision :
  save_path_of aspirin_env "aspirin" "out" (JString "1_2")
  ≠ save_path_of aspirin_env "aspirin" "out" (JString "1-2") ∧
  sanitized_key (save_path_of aspirin_env "aspirin" "out" (JString "1_2"))
  = sanitized_key (save_path_of aspirin_env "aspirin" "out" (JString "1-2")).
Proof. split; [discriminate|reflexivity]. Qed.

(** ** Waiting between attempts *)

Lemma slept_app (t1 t2 : list event) : slept (t1 ++ t2) = slept t1 + slept t2.
Proof.
  induction t1 as [|e t1 IH]; [done|]. cbn [app slept].
  destruct e; rewrite ?IH; lia.
Qed.

Lemma slept_validations (save_path : string) (t : list event) :
  Forall (λ e, ∃ ok, e = EvValidate save_path ok) t → slept t = 0.
Proof. induction 1 as [|e t [ok ->] _ IH]; [done|]. exact IH. Qed.

Lemma attempts_backoff (E : environment) (url save_path : string) (n : nat) :
  ∀ w, ∃ v w' new,
    attempts E url save_path n w = (Val v, w') ∧
    w_trace w' = w_trace w ++ new ∧
    ((v = false ∧ fetches new = n ∧ slept new = Z.of_nat n) ∨
     ((1 ≤ fetches new ≤ n)%nat ∧ slept new = Z.of_nat (fetches new) - 1)).
Proof.
  induction n as [|n IH]; intros w; cbn [attempts].
  - exists false, w, []. rewrite app_nil_r. split; [done|]. split; [done|].
    by left.
  - rewrite bind_run.
    destruct (attempt_spec E url save_path w)
      as (r & fs1 & new1 & -> & _ & Hnew1 & _).
    pose proof (fetches_validations _ _ Hnew1) as Hf1.
    pose proof (slept_validations _ _ Hnew1) as Hs1.
    assert (fetches (EvFetch url (temp_of save_path) :: new1) = 1%nat) as Hone.
    { change (EvFetch url (temp_of save_path) :: new1)
        with ([EvFetch url (temp_of save_path)] ++ new1).
      by rewrite fetches_app, Hf1. }
    assert (slept (EvFetch url (temp_of save_path) :: new1) = 0) as Hzero
      by done.
    destruct r as [v|].
    + eexists v, _, _. split; [reflexivity|]. split; [reflexivity|].
      right. rewrite Hone, Hzero. lia.
    + rewrite bind_run. unfold sleep. rewrite log_run.
      cbn [w_fs w_clock w_trace].
      match goal with |- context [attempts _ _ _ _ ?w1] =>
        destruct (IH w1) as (v & w' & new & -> & Htrace & Hcases)
      end.
      cbn [w_trace] in Htrace.
      exists v, w',
        ((EvFetch url (temp_of save_path) :: new1) ++ [EvSleep 1] ++ new).
      split; [done|]. split; [by rewrite Htrace, <- !app_assoc|].
      rewrite !slept_app, !fetches_app, Hone, Hzero.
      change (slept [EvSleep 1]) with 1. change (fetches [EvSleep 1]) with O.
      destruct Hcases as [(-> & Hf & Hs)|[Hf Hs]]; [left|right].
      * split; [done|]. split; lia.
      * split; lia.
Qed.

(** X18. [download_pdf] waits one second after every attempt that falls
    through and never after an attempt that returns.  So either all
    [retries] attempts fell through, the result is false and it has waited
    [retries] seconds in all, or an attempt returned and it has waited one
    second less than the number of requests it made; the latter holds
    whenever the result is true. *)
Theorem download_pdf_backoff
    (E : environment) (url save_path : string) (retries : Z) (w : world) :
  ∃ v w' new,
    download_pdf E url save_path retries w = (Val v, w') ∧
    w_trace w' = w_trace w ++ new ∧
    ((v = false ∧ fetches new = Z.to_nat retries ∧
      slept new = Z.of_nat (Z.to_nat retries)) ∨
     ((1 ≤ fetches new ≤ Z.to_nat retries)%nat ∧
      slept new = Z.of_nat (fetches new) - 1)) ∧
    (v = true → slept new = Z.of_nat (fetches new) - 1) ∧
    0 ≤ slept new ≤ Z.max 0 retries.
Proof.
  unfold download_pdf.
  destruct (attempts_backoff E url save_path (Z.to_nat retries) w)
    as (v & w' & new & Hrun & Htrace & Hcases).
  exists v, w', new. split; [done|]. split; [done|]. split; [done|].
  split.
  - intros ->. by destruct Hcases as [(? & _)|[_ ?]].
  - destruct Hcases as [(_ & _ & ->)|[? ->]]; lia.
Qed.

(** ** Pipeline driver: no candidate ends the run *)

Lemma driver_loop_exhausts
    (E : environment) (drug folder : string) (max_pdfs : Z) (ids : list json) :
  ∀ count files w,
  ∃ count' files' w' new,
    driver_loop E drug folder max_pdfs ids (count, files) w
    = (Val (count', files'), w') ∧
    w_trace w' = w_trace w ++ new ∧
    (count' < max_pdfs → resolved_urls new = map (oa_url E) ids).
Proof.
  induction ids as [|id rest IH]; intros count files w.
  { exists count, files, w, []. by rewrite app_nil_r. }
  cbn [driver_loop].
  destruct (Z.leb_spec max_pdfs count) as [Hstop|Hgo].
  { exists count, files, w, []. rewrite app_nil_r.
    split; [done|]. split; [done|]. lia. }
  rewrite bind_run, get_pdf_link_from_pmcid_run.
  set (w1 := after_request (EvResolve (oa_url E id)) w).
  assert (∃ count' files' w' new,
            driver_loop E drug folder max_pdfs rest (count, files) w1
            = (Val (count', files'), w') ∧
            w_trace w' = w_trace w ++ new ∧
            (count' < max_pdfs →
             resolved_urls new = map (oa_url E) (id :: rest))) as Hskip.
  { destruct (IH count files w1) as (c' & f' & w' & new & -> & Htrace & Hall).
    exists c', f', w', (EvResolve (oa_url E id) :: new).
    split; [done|]. split.
    - rewrite Htrace. subst w1. unfold after_request. cbn [w_trace].
      by rewrite <- app_assoc.
    - intros Hlt. by rewrite resolved_urls_resolve, Hall. }
  destruct (resolved _) as [[|c url]|]; [done| |done].
  clear Hskip. rewrite bind_run.
  set (save_path := save_path_of E drug folder id).
  destruct (download_pdf_spec E (String c url) save_path 3 w1)
    as (v & fs2 & clock2 & newd & -> & Hdl & _).
  subst w1. unfold after_request. cbn [w_trace].
  destruct v.
  - repeat (rewrite bind_run, log_run; cbn [w_fs w_clock w_trace]).
    match goal with |- context [driver_loop _ _ _ _ _ ?st ?w3] =>
      destruct (IH (count + 1) (files ++ [save_path]) w3)
        as (c' & f' & w' & new & -> & Htrace & Hall)
    end.
    cbn [w_trace] in Htrace.
    exists c', f', w',
      ([EvResolve (oa_url E id)] ++ newd
       ++ [EvAppend save_path; EvSuccess save_path] ++ new).
    split; [done|]. split; [by rewrite Htrace, <- !app_assoc|].
    intros Hlt.
    rewrite !resolved_urls_app, (download_events_resolved_urls newd) by done.
    by rewrite Hall.
  - rewrite bind_run, log_run. cbn [w_fs w_clock w_trace].
    match goal with |- context [driver_loop _ _ _ _ _ ?st ?w3] =>
      destruct (IH count files w3)
        as (c' & f' & w' & new & -> & Htrace & Hall)
    end.
    cbn [w_trace] in Htrace.
    exists c', f', w',
      ([EvResolve (oa_url E id)] ++ newd ++ [EvWarning (fmt E id)] ++ new).
    split; [done|]. split; [by rewrite Htrace, <- !app_assoc|].
    intros Hlt.
    rewrite !resolved_urls_app, (download_events_resolved_urls newd) by done.
    by rewrite Hall.
Qed.

(** X19. When the loop ends with fewer than [max_pdfs] downloads, it has
    resolved every ID of the list, in order: no candidate that fails to
    resolve or to download ends the run early. *)
Theorem driver_visits_every_id
    (E : environment) (drug folder : string) (max_pdfs : Z)
    (pmc_ids : list json) (w : world) :
  ∃ count files w' new,
    driver_loop E drug folder max_pdfs pmc_ids (0, []) w
    = (Val (count, files), w') ∧
    w_trace w' = w_trace w ++ new ∧
    (count < max_pdfs → resolved_urls new = map (oa_url E) pmc_ids).
Proof. apply driver_loop_exhausts. Qed.

(** With room for two downloads, the scenario resolves all five IDs. *)
Example driver_visits_every_id_scenario :
  let r := driver_loop aspirin_env "aspirin" "out" 3 aspirin_ids (0, [])
             empty_world in
  r.1 = Val (2, ["out/aspirin_repurposing_PMC4.pdf";
                 "out/aspirin_repurposing_PMC5.pdf"]) ∧
  resolved_urls (w_trace r.2) = map (oa_url aspirin_env) aspirin_ids.
Proof. vm_compute. split; reflexivity. Qed.

(** ** Requests that touch no file *)

(** X20. The search and the resolver each make exactly one request, log
    exactly that request and leave every file as it is, whether they return
    or raise. *)
Theorem lookups_touch_no_file (E : environment) (w : world) :
  (∀ query max_results,
     let w' := (search_pmc_articles E query max_results w).2 in
     w_fs w' = w_fs w ∧ w_clock w' = S (w_clock w) ∧
     w_trace w' = w_trace w ++ [EvSearch query]) ∧
  (∀ pmcid,
     let w' := (get_pdf_link_from_pmcid E pmcid w).2 in
     w_fs w' = w_fs w ∧ w_clock w' = S (w_clock w) ∧
     w_trace w' = w_trace w ++ [EvResolve (oa_url E pmcid)]).
Proof.
  split.
  - intros query max_results. by rewrite search_pmc_articles_run.
  - intros pmcid. by rewrite get_pdf_link_from_pmcid_run.
Qed.
